(** * XenonPy descriptor base: the batch featurizer driver

    A shallow embedding of [xenonpy/descriptor/base.py]: the class
    [BaseFeature] with its methods [set_n_jobs], [n_jobs], [transform],
    [featurize_many] and [featurize_wrapper].  The abstract methods
    [featurize] and [feature_labels] are the interface a concrete featurizer
    implements; they are the fields of the class [Featurizer] below.

    Python code runs in a state-and-exception monad [M]: a computation takes
    the world (the attributes of [self] and a ghost trace of the calls made
    to the abstract methods) and gives back either a value or a raised
    exception, together with the world it leaves behind. *)

From Stdlib Require Import List String Bool Arith PArith ZArith Lia.
Import ListNotations.
Local Open Scope string_scope.
Local Open Scope list_scope.

Set Implicit Arguments.
Set Warnings "-register-all".

(** ** Python values *)

(** The three container classes that line 201 tests with [isinstance]. *)
Inductive seqkind : Type := KTuple | KList | KArray.

(** The objects that reach the driver.  [PyIter] stands for an iterable
    without item access (a generator, a set); [PySeq KArray] is a
    [numpy.ndarray] of at least one dimension, whose items are rows (again
    arrays) or numpy scalars. *)
Inductive pyval : Type :=
| PyNone
| PyInt (z : Z)
| PyNaN
| PyStr (s : string)
| PySeq (k : seqkind) (xs : list pyval)
| PyIter (xs : list pyval).

(** Exceptions: the class name and the message. *)
Inductive exn : Type := Exn (cls msg : string).

Inductive result (A : Type) : Type :=
| Return (a : A)
| Raise (e : exn).
Arguments Return {A} a.
Arguments Raise {A} e.

Definition is_return {A} (r : result A) : bool :=
  match r with Return _ => true | Raise _ => false end.

(** The characters of a string, each as a string of length one: what
    iterating over a Python [str] yields. *)
Fixpoint chars (s : string) : list pyval :=
  match s with
  | EmptyString => []
  | String c s' => PyStr (String c EmptyString) :: chars s'
  end.

(** [hasattr(v, '__getitem__')]. *)
Definition has_getitem (v : pyval) : bool :=
  match v with
  | PyStr _ | PySeq _ _ => true
  | PyNone | PyInt _ | PyNaN | PyIter _ => false
  end.

(** [iter(v)]: the items an iterable yields, [None] when [v] is not
    iterable. *)
Definition iter (v : pyval) : option (list pyval) :=
  match v with
  | PyStr s => Some (chars s)
  | PySeq _ xs => Some xs
  | PyIter xs => Some xs
  | PyNone | PyInt _ | PyNaN => None
  end.

(** The items of a sequence, in index order ([v[0]], [v[1]], ...). *)
Definition items (v : pyval) : list pyval :=
  match v with
  | PyStr s => chars s
  | PySeq _ xs => xs
  | _ => []
  end.

(** [len(v)] for an object with item access. *)
Definition len (v : pyval) : nat := List.length (items v).

(** [isinstance(v, (tuple, list, np.ndarray))]. *)
Definition is_tuple_like (v : pyval) : bool :=
  match v with
  | PySeq _ _ => true
  | _ => false
  end.

(** [(x,)], the element [zip(entries)] yields for the item [x]. *)
Definition tuple1 (x : pyval) : pyval := PySeq KTuple [x].

(** [zip(entries)] of a single iterable: the one-element tuples of its
    items (a list in Python 2, an iterator consumed once in Python 3). *)
Definition zip (entries : pyval) : pyval :=
  PySeq KList (map tuple1 (items entries)).

(** ** The world: attributes of [self] and the ghost trace *)

Inductive event : Type :=
| EvFeaturize (args : list pyval)   (* self.featurize entered on args *)
| EvLabels                          (* self.feature_labels entered *)
| EvWarn.                           (* warnings.warn *)

(** An attribute is [None] until it is first assigned ([hasattr] false). *)
Record world : Type := World {
  _n_jobs : option positive;
  __ignore_errors : option bool;
  __return_errors : option bool;
  trace : list event
}.

Definition M (A : Type) : Type := world -> result A * world.

Definition ret {A} (a : A) : M A := fun w => (Return a, w).
Definition raise {A} (e : exn) : M A := fun w => (Raise e, w).
Definition bind {A B} (m : M A) (k : A -> M B) : M B :=
  fun w => match m w with
           | (Return a, w') => k a w'
           | (Raise e, w') => (Raise e, w')
           end.
(** [try: body except BaseException: handler]; the handler sees the
    exception that is being handled. *)
Definition try_except {A} (body : M A) (handler : exn -> M A) : M A :=
  fun w => match body w with
           | (Return a, w') => (Return a, w')
           | (Raise e, w') => handler e w'
           end.
Definition lift {A} (r : result A) : M A := fun w => (r, w).

Declare Scope py_scope.
Delimit Scope py_scope with py.
Notation "x <- m ;; k" := (bind m (fun x => k))
  (at level 100, m at next level, right associativity) : py_scope.
Notation "m ;; k" := (bind m (fun _ => k))
  (at level 100, right associativity) : py_scope.
Local Open Scope py_scope.

Definition emit (ev : event) : M unit :=
  fun w => (Return tt,
            World (_n_jobs w) (__ignore_errors w) (__return_errors w)
                  (trace w ++ [ev])).

(** Attribute access on [self]; reading an attribute that was never
    assigned raises [AttributeError]. *)
Definition attribute_error (name : string) : exn :=
  Exn "AttributeError" name.

Definition get_ignore_errors : M bool :=
  fun w => match __ignore_errors w with
           | Some b => (Return b, w)
           | None => (Raise (attribute_error "__ignore_errors"), w)
           end.

Definition get_return_errors : M bool :=
  fun w => match __return_errors w with
           | Some b => (Return b, w)
           | None => (Raise (attribute_error "__return_errors"), w)
           end.

Definition set_ignore_errors (b : bool) : M unit :=
  fun w => (Return tt, World (_n_jobs w) (Some b) (__return_errors w) (trace w)).

Definition set_return_errors (b : bool) : M unit :=
  fun w => (Return tt, World (_n_jobs w) (__ignore_errors w) (Some b) (trace w)).

(** [entries[i]]. *)
Definition getitem (v : pyval) (i : nat) : M pyval :=
  match nth_error (items v) i with
  | Some x => ret x
  | None => raise (Exn "IndexError" "index out of range")
  end.

(** A list comprehension [[f(x) for x in xs]]: left to right, and the
    first exception ends it. *)
Fixpoint mapM {A B} (f : A -> M B) (xs : list A) : M (list B) :=
  match xs with
  | [] => ret []
  | x :: xs' => y <- f x ;; ys <- mapM f xs' ;; ret (y :: ys)
  end.

(** The values and the exceptions among the outcomes of a list of tasks. *)
Fixpoint values {A} (rs : list (result A)) : list A :=
  match rs with
  | [] => []
  | Return a :: rs' => a :: values rs'
  | Raise _ :: rs' => values rs'
  end.

Fixpoint failures {A} (rs : list (result A)) : list exn :=
  match rs with
  | [] => []
  | Return _ :: rs' => failures rs'
  | Raise e :: rs' => e :: failures rs'
  end.

(** ** The interface of a concrete featurizer, and the platform *)

(** [featurize] and [feature_labels] are abstract in [BaseFeature]; the
    class documentation requires them to leave the featurizer unchanged
    and to give the same answer when run twice, so they are functions of
    their arguments.  [featurize] returns a Python list of features or
    raises. *)
Class Featurizer : Type := {
  featurize : list pyval -> result (list pyval);
  feature_labels : result (list pyval)
}.

(** What the driver takes from the interpreter and the operating system.
    [sched k] says which of [k] failed pool tasks reports first (the pool
    re-raises that one); it is used modulo [k]. *)
Record Platform : Type := {
  py_major : Z;                       (* sys.version_info[0] *)
  cpu_count : positive;               (* multiprocessing.cpu_count() *)
  format_exception : exn -> string;   (* joined traceback.format_exception *)
  sched : nat -> nat
}.

(** The copy of [self] a pool worker receives: same attributes, and a
    ghost trace of its own. *)
Definition worker_copy (w : world) : world :=
  World (_n_jobs w) (__ignore_errors w) (__return_errors w) [].

(** [Pool(n).map(f, xs)], by its contract: every task runs in a worker on
    a copy of [self]; the results come back in input order; if tasks
    failed, the exception of one of them is re-raised in the caller.  The
    caller's attributes are untouched; the ghost trace gathers the calls
    the workers made, task by task. *)
Definition pool_map {A B} (P : Platform) (f : A -> M B) (xs : list A)
  : M (list B) :=
  fun w =>
    let runs := map (fun x => f x (worker_copy w)) xs in
    let w' := World (_n_jobs w) (__ignore_errors w) (__return_errors w)
                    (trace w ++ List.concat (map (fun r => trace (snd r)) runs)) in
    match failures (map fst runs) with
    | [] => (Return (values (map fst runs)), w')
    | e :: es =>
        (Raise (nth (sched P (List.length (e :: es))
                       mod List.length (e :: es)) (e :: es) e), w')
    end.

Definition config_error : exn :=
  Exn "ValueError" "Please set ignore_errors to True to use return_errors.".

Definition shape_error : exn :=
  Exn "Exception" "'entries' must be a list-like object".

Definition recursion_error : exn :=
  Exn "RecursionError" "maximum recursion depth exceeded".

Definition unpack_error : exn :=
  Exn "TypeError" "argument after * must be an iterable".

(** ** The methods of [BaseFeature] *)

Section BaseFeature.

Context {F : Featurizer} (P : Platform).

(** [set_n_jobs(n_jobs)] *)
Definition set_n_jobs (n : positive) : M unit :=
  fun w => (Return tt,
            World (Some n) (__ignore_errors w) (__return_errors w) (trace w)).

(** The property [n_jobs]. *)
Definition n_jobs : M positive :=
  fun w => (Return (match _n_jobs w with
                    | Some n => n
                    | None => cpu_count P
                    end), w).

(** Star-unpacking of [x] at a call site: raises [TypeError] in the caller
    when [x] is not iterable. *)
Definition unpack (x : pyval) : M (list pyval) :=
  match iter x with
  | Some args => ret args
  | None => raise unpack_error
  end.

(** [self.featurize( *x )] *)
Definition call_featurize (x : pyval) : M (list pyval) :=
  args <- unpack x ;;
  emit (EvFeaturize args) ;;
  lift (featurize args).

(** [self.feature_labels()] *)
Definition call_feature_labels : M (list pyval) :=
  emit EvLabels ;;
  lift feature_labels.

(** [featurize_wrapper(x)], lines 230 to 245. *)
Definition featurize_wrapper (x : pyval) : M (list pyval) :=
  try_except
    (r <- get_return_errors ;;
     if r then
       v <- call_featurize x ;;
       ret (v ++ [PyNaN])
     else
       call_featurize x)
    (fun e =>
       ig <- get_ignore_errors ;;
       if ig then
         r <- get_return_errors ;;
         if r then
           labels <- call_feature_labels ;;
           let features := repeat PyNaN (List.length labels) in
           let error := format_exception P e in
           ret (features ++ [PyStr error])
         else
           labels <- call_feature_labels ;;
           ret (repeat PyNaN (List.length labels))
       else
         raise e).

(** [featurize_many(entries, ignore_errors, return_errors)], lines 185 to
    218.  The method calls itself (line 214); [fuel] bounds the depth of
    these calls, and a call with no fuel left raises [RecursionError] as
    the interpreter does at its recursion limit. *)
Fixpoint featurize_many_fuel (fuel : nat) (entries : pyval)
    (ignore_errors return_errors : bool) : M (list (list pyval)) :=
  match fuel with
  | O => raise recursion_error
  | S fuel' =>
      if return_errors && negb ignore_errors then raise config_error
      else
        set_ignore_errors ignore_errors ;;
        set_return_errors return_errors ;;
        if negb (has_getitem entries) then raise shape_error
        else if Nat.eqb (len entries) 0 then ret []   (* len(entries) is 0 *)
        else
          x0 <- getitem entries 0 ;;
          let entries := if negb (is_tuple_like x0) then zip entries
                         else entries in
          n <- n_jobs ;;
          if Pos.eqb n 1 then mapM featurize_wrapper (items entries)
          else if Z.ltb (py_major P) 3 then
            emit EvWarn ;;
            set_n_jobs 1 ;;
            featurize_many_fuel fuel' entries ignore_errors return_errors
          else
            pool_map P featurize_wrapper (items entries)
  end.

(** The method re-enters itself at most once, with [n_jobs] set to 1, so
    depth two is all it needs (lemma [featurize_many_fuel_enough]). *)
Definition featurize_many : pyval -> bool -> bool -> M (list (list pyval)) :=
  featurize_many_fuel 2.

(** [transform(X)] *)
Definition transform (X : pyval) : M (list (list pyval)) :=
  featurize_many X true false.

End BaseFeature.

(** ** Two concrete featurizers and platforms, for running the model *)

(** The featurizer of the specification's examples: it doubles its one
    numeric argument and returns it as a one-element vector. *)
Definition doubler_featurize (args : list pyval) : result (list pyval) :=
  match args with
  | [PyInt z] => Return [PyInt (2 * z)]
  | [_] => Raise (Exn "TypeError" "unsupported operand")
  | _ => Raise (Exn "TypeError" "featurize() takes 1 positional argument")
  end.

Definition Doubler : Featurizer :=
  {| featurize := doubler_featurize;
     feature_labels := Return [PyStr "double"] |}.

(** A featurizer with one argument that is itself a pair: it returns the
    sum of the two components. *)
Definition pair_sum_featurize (args : list pyval) : result (list pyval) :=
  match args with
  | [PySeq _ [PyInt a; PyInt b]] => Return [PyInt (a + b)]
  | [_] => Raise (Exn "TypeError" "a pair of numbers is required")
  | _ => Raise (Exn "TypeError" "featurize() takes 1 positional argument")
  end.

Definition PairSum : Featurizer :=
  {| featurize := pair_sum_featurize;
     feature_labels := Return [PyStr "sum"] |}.

Definition show_exn (e : exn) : string :=
  match e with Exn cls msg => cls ++ ": " ++ msg end.

Definition python3 : Platform :=
  {| py_major := 3; cpu_count := 4;
     format_exception := show_exn; sched := fun _ => 0 |}.

Definition python2 : Platform :=
  {| py_major := 2; cpu_count := 4;
     format_exception := show_exn; sched := fun _ => 0 |}.

(** A featurizer object on which nothing was set yet, and one after
    [set_n_jobs(1)]. *)
Definition fresh : world := World None None None [].
Definition single_job : world := World (Some 1%positive) None None [].

(** ** What one call computes: the outcome of the wrapper on one item *)

(** The world after lines 189 and 190. *)
Definition with_flags (ignore_errors return_errors : bool) (w : world)
  : world :=
  World (_n_jobs w) (Some ignore_errors) (Some return_errors) (trace w).

(** The world with further events on its ghost trace. *)
Definition add_trace (w : world) (evs : list event) : world :=
  World (_n_jobs w) (__ignore_errors w) (__return_errors w) (trace w ++ evs).

(** Line 201 looks at the first item only: the whole sequence is zipped
    exactly when that item is not a tuple, list or array. *)
Definition wraps (entries : pyval) : bool :=
  match items entries with
  | [] => false
  | x0 :: _ => negb (is_tuple_like x0)
  end.

(** The argument tuple the wrapper receives for the item [x] of
    [entries]. *)
Definition as_args (entries x : pyval) : pyval :=
  if wraps entries then tuple1 x else x.

Definition prepared (entries : pyval) : list pyval :=
  map (as_args entries) (items entries).

Section Outcomes.

Context {F : Featurizer} (P : Platform).

(** The outcome of the call [self.featurize( *x )]: the transform on the
    item [x]. *)
Definition apply_featurize (x : pyval) : result (list pyval) :=
  match iter x with
  | Some args => featurize args
  | None => Raise unpack_error
  end.

(** The vector the wrapper builds for a failed item. *)
Definition nan_vector (n : nat) (return_errors : bool) (e : exn)
  : list pyval :=
  repeat PyNaN n ++
  (if return_errors then [PyStr (format_exception P e)] else []).

(** The outcome of the wrapper on [x] under given flags. *)
Definition wrapper_result (ignore_errors return_errors : bool) (x : pyval)
  : result (list pyval) :=
  match apply_featurize x with
  | Return v => Return (if return_errors then v ++ [PyNaN] else v)
  | Raise e =>
      if ignore_errors then
        match feature_labels with
        | Return labels =>
            Return (nan_vector (List.length labels) return_errors e)
        | Raise e' => Raise e'
        end
      else Raise e
  end.

(** The calls the wrapper makes on [x]. *)
Definition wrapper_events (ignore_errors : bool) (x : pyval) : list event :=
  match iter x with
  | Some args =>
      EvFeaturize args ::
      match featurize args with
      | Return _ => []
      | Raise _ => if ignore_errors then [EvLabels] else []
      end
  | None => if ignore_errors then [EvLabels] else []
  end.

(** The outcome of the list comprehension of line 206. *)
Fixpoint sequential (ignore_errors return_errors : bool) (xs : list pyval)
  : result (list (list pyval)) :=
  match xs with
  | [] => Return []
  | x :: xs' =>
      match wrapper_result ignore_errors return_errors x with
      | Return v =>
          match sequential ignore_errors return_errors xs' with
          | Return vs => Return (v :: vs)
          | Raise e => Raise e
          end
      | Raise e => Raise e
      end
  end.

(** The outcome of the pool of line 218. *)
Definition pooled (ignore_errors return_errors : bool) (xs : list pyval)
  : result (list (list pyval)) :=
  let rs := map (wrapper_result ignore_errors return_errors) xs in
  match failures rs with
  | [] => Return (values rs)
  | e :: es =>
      Raise (nth (sched P (List.length (e :: es)) mod List.length (e :: es))
                 (e :: es) e)
  end.

(** The value of the property [n_jobs] in the world [w]. *)
Definition jobs (w : world) : positive :=
  match _n_jobs w with
  | Some n => n
  | None => cpu_count P
  end.

(** Whether a call that starts in [w] ends in the list comprehension:
    directly (line 206), or after the Python 2 fallback (lines 213 to
    216). *)
Definition sequentially (w : world) : bool :=
  Pos.eqb (jobs w) 1 || Z.ltb (py_major P) 3.

Definition batch_result (seq ignore_errors return_errors : bool)
    (xs : list pyval) : result (list (list pyval)) :=
  if seq then sequential ignore_errors return_errors xs
  else pooled ignore_errors return_errors xs.

(** A call to the transform recorded on the trace was made on the
    unpacked arguments of one of [xs]. *)
Definition made_on (xs : list pyval) (ev : event) : Prop :=
  match ev with
  | EvFeaturize args => exists x, In x xs /\ iter x = Some args
  | EvLabels | EvWarn => True
  end.

End Outcomes.


(** ** The rest of the class *)

(** The abstract methods as [BaseFeature] itself defines them (lines 247
    to 266): each raises [NotImplementedError]. *)
Definition not_implemented (what : string) : exn :=
  Exn "NotImplementedError" (what ++ " is not defined!").

Definition AbstractBase : Featurizer :=
  {| featurize := fun _ => Raise (not_implemented "featurize()");
     feature_labels := Raise (not_implemented "feature_labels()") |}.

(** [citations()] and [implementors()], lines 268 to 288. *)
Definition citations : M (list pyval) :=
  raise (not_implemented "citations()").

Definition implementors : M (list pyval) :=
  raise (not_implemented "implementors()").

(** [fit(X, y)] returns [self] and touches nothing. *)
Definition fit (X : pyval) : M unit := ret tt.

(** ** The trace of a call, exactly *)

Section Traces.

Context {F : Featurizer} (P : Platform).

(** The events of the list comprehension: those of the wrapper on each
    item up to the first one on which it raises. *)
Fixpoint sequential_events (ignore_errors return_errors : bool)
    (xs : list pyval) : list event :=
  match xs with
  | [] => []
  | x :: xs' =>
      wrapper_events ignore_errors x ++
      match wrapper_result P ignore_errors return_errors x with
      | Return _ => sequential_events ignore_errors return_errors xs'
      | Raise _ => []
      end
  end.

Definition batch_events (seq ignore_errors return_errors : bool)
    (xs : list pyval) : list event :=
  if seq then sequential_events ignore_errors return_errors xs
  else List.concat (map (wrapper_events ignore_errors) xs).

(** Whether the call takes the Python 2 fallback of lines 208 to 216: it
    got past the three checks, [n_jobs] is not 1, and the interpreter is
    older than Python 3. *)
Definition falls_back (entries : pyval) (ignore_errors return_errors : bool)
    (w : world) : bool :=
  negb (return_errors && negb ignore_errors)
  && has_getitem entries
  && negb (Nat.eqb (len entries) 0)
  && negb (Pos.eqb (jobs P w) 1)
  && Z.ltb (py_major P) 3.

(** Calls of [featurize_many] made one after the other on the same
    featurizer, each given as its entries and its two flags; a caller
    that catches an exception goes on from the state the call left. *)
Fixpoint run_calls (calls : list (pyval * bool * bool)) (w : world)
  : world :=
  match calls with
  | [] => w
  | (entries, ignore_errors, return_errors) :: calls' =>
      run_calls calls'
        (snd (featurize_many P entries ignore_errors return_errors w))
  end.

(** The vector tolerant mode gives the item [x] when there are [n]
    feature labels. *)
Definition tolerant_row (n : nat) (return_errors : bool) (x : pyval)
  : list pyval :=
  match apply_featurize x with
  | Return v => if return_errors then v ++ [PyNaN] else v
  | Raise e => nan_vector P n return_errors e
  end.

End Traces.

(** The argument lists of the calls of the transform on a trace, in
    order. *)
Fixpoint featurize_calls (evs : list event) : list (list pyval) :=
  match evs with
  | [] => []
  | EvFeaturize args :: evs' => args :: featurize_calls evs'
  | _ :: evs' => featurize_calls evs'
  end.

(** The number of warnings on a trace. *)
Fixpoint warnings (evs : list event) : nat :=
  match evs with
  | [] => 0
  | EvWarn :: evs' => S (warnings evs')
  | _ :: evs' => warnings evs'
  end.

(** The argument list a call of the transform on [x] gets, if [x] can be
    unpacked. *)
Definition call_of (x : pyval) : list (list pyval) :=
  match iter x with
  | Some args => [args]
  | None => []
  end.

(** ** [featurize_dataframe] *)

(** The method works on a pandas [DataFrame].  pandas is not part of this
    repository: a frame is an abstract type, and the operations the method
    uses on it are the fields of [Pandas].  Column labels of a frame are
    strings.  An operation that fails returns the exception pandas
    raises. *)
Record Pandas (frame : Type) : Type := {
  columns_values : frame -> list string;              (* df.columns.values *)
  getitem_values : frame -> pyval -> result pyval;    (* df[col_id].values *)
  DataFrame : list (list pyval) -> frame -> list pyval -> result frame;
                      (* pd.DataFrame(features, index=df.index, columns) *)
  getitem_column : frame -> pyval -> result pyval;    (* res[k] *)
  setitem_column : frame -> pyval -> pyval -> result frame;  (* df[k] = c *)
  concat_columns : frame -> frame -> result frame     (* pd.concat, axis=1 *)
}.

Section DataFrames.

Variable frame : Type.

(** Code that also works on the caller's frame: the frame is threaded
    next to the world, and survives an exception as the world does. *)
Definition D (A : Type) : Type := frame -> world -> result A * frame * world.

Definition dret {A} (a : A) : D A := fun df w => (Return a, df, w).
Definition draise {A} (e : exn) : D A := fun df w => (Raise e, df, w).
Definition dbind {A B} (m : D A) (k : A -> D B) : D B :=
  fun df w => match m df w with
              | (Return a, df', w') => k a df' w'
              | (Raise e, df', w') => (Raise e, df', w')
              end.

(** A method of [self], which does not see the frame. *)
Definition on_self {A} (m : M A) : D A :=
  fun df w => match m w with (r, w') => (r, df, w') end.

(** A pandas operation that reads the frame. *)
Definition reading {A} (f : frame -> result A) : D A :=
  fun df w => (f df, df, w).

(** A pandas operation that updates the frame in place. *)
Definition updating (f : frame -> result frame) : D unit :=
  fun df w => match f df with
              | Return df' => (Return tt, df', w)
              | Raise e => (Raise e, df, w)
              end.

Declare Scope df_scope.
Notation "x <- m ;; k" := (dbind m (fun x => k))
  (at level 100, m at next level, right associativity) : df_scope.
Notation "m ;; k" := (dbind m (fun _ => k))
  (at level 100, right associativity) : df_scope.
Local Open Scope df_scope.

Context {F : Featurizer} (P : Platform) (pd : Pandas frame).

(** [self.__class__.__name__] *)
Variable class_name : string.

(** [isinstance(v, string_types)] *)
Definition is_string (v : pyval) : bool :=
  match v with
  | PyStr _ => true
  | _ => false
  end.

(** [col in labels], for a column label [col]. *)
Definition label_in (col : string) (labels : list pyval) : bool :=
  existsb (fun l => match l with
                    | PyStr s => String.eqb col s
                    | _ => false
                    end) labels.

(** The [ValueError] of line 149; character 34 is the double quote. *)
Definition exists_error (col : string) : exn :=
  Exn "ValueError"
      (String (Ascii.ascii_of_nat 34)
              (col ++ String (Ascii.ascii_of_nat 34)
                             " exists in input dataframe")).

(** The loop of lines 147 to 149. *)
Fixpoint check_columns (labels : list pyval) (cols : list string) : D unit :=
  match cols with
  | [] => dret tt
  | col :: cols' =>
      if label_in col labels then draise (exists_error col)
      else check_columns labels cols'
  end.

(** The loop of lines 163 and 164. *)
Fixpoint assign_columns (res : frame) (labels : list pyval) : D unit :=
  match labels with
  | [] => dret tt
  | k :: ks =>
      column <- reading (fun _ => getitem_column pd res k) ;;
      updating (fun df => setitem_column pd df k column) ;;
      assign_columns res ks
  end.

(** [featurize_dataframe(df, col_id, ignore_errors, return_errors,
    inplace)], lines 140 to 167; [df] is the frame the computation
    starts with. *)
Definition featurize_dataframe (col_id : pyval)
    (ignore_errors return_errors inplace : bool) : D frame :=
  let col_id := if is_string col_id then PySeq KList [col_id] else col_id in
  labels <- on_self call_feature_labels ;;
  cols <- reading (fun df => Return (columns_values pd df)) ;;
  check_columns labels cols ;;
  values <- reading (fun df => getitem_values pd df col_id) ;;
  features <- on_self (featurize_many P values ignore_errors return_errors) ;;
  let labels := if return_errors
                then labels ++ [PyStr (class_name ++ " Exceptions")]
                else labels in
  res <- reading (fun df => DataFrame pd features df labels) ;;
  if inplace then
    assign_columns res labels ;;
    reading (fun df => Return df)
  else
    reading (fun df => concat_columns pd df res).

End DataFrames.

Arguments featurize_dataframe {frame F} P pd class_name col_id
  ignore_errors return_errors inplace.

(** *** A small stand-in for pandas, for running the model *)

(** A frame as its columns, each a label with the values of the rows. *)
Definition toy_frame : Type := list (string * list pyval).

Fixpoint toy_lookup (c : string) (df : toy_frame) : option (list pyval) :=
  match df with
  | [] => None
  | (c', col) :: df' => if String.eqb c c' then Some col else toy_lookup c df'
  end.

Fixpoint toy_select (keys : list pyval) (df : toy_frame)
  : option (list (list pyval)) :=
  match keys with
  | [] => Some []
  | PyStr c :: keys' =>
      match toy_lookup c df, toy_select keys' df with
      | Some col, Some cols => Some (col :: cols)
      | _, _ => None
      end
  | _ :: _ => None
  end.

(** The rows of a list of columns of equal length. *)
Fixpoint toy_rows (cols : list (list pyval)) : list (list pyval) :=
  match cols with
  | [] => []
  | col :: cols' =>
      match cols' with
      | [] => map (fun v => [v]) col
      | _ :: _ => map (fun p => fst p :: snd p) (combine col (toy_rows cols'))
      end
  end.

Definition key_error : exn := Exn "KeyError" "not in index".

Definition toy_getitem_values (df : toy_frame) (col_id : pyval)
  : result pyval :=
  match col_id with
  | PySeq _ keys =>
      match toy_select keys df with
      | Some cols => Return (PySeq KArray (map (PySeq KArray) (toy_rows cols)))
      | None => Raise key_error
      end
  | _ => Raise key_error
  end.

(** Column [i] of the rows, for each label from position [i] on. *)
Fixpoint toy_columns (rows : list (list pyval)) (i : nat)
    (labels : list pyval) : option toy_frame :=
  match labels with
  | [] => Some []
  | PyStr c :: labels' =>
      match toy_columns rows (S i) labels' with
      | Some df => Some ((c, map (fun row => nth i row PyNaN) rows) :: df)
      | None => None
      end
  | _ :: _ => None
  end.

Definition toy_DataFrame (rows : list (list pyval)) (df : toy_frame)
    (labels : list pyval) : result toy_frame :=
  if forallb (fun row => Nat.eqb (List.length row) (List.length labels)) rows
  then match toy_columns rows 0 labels with
       | Some res => Return res
       | None => Raise (Exn "TypeError" "label is not a string")
       end
  else Raise (Exn "ValueError" "columns passed do not match the data").

Definition toy_getitem_column (res : toy_frame) (k : pyval) : result pyval :=
  match k with
  | PyStr c =>
      match toy_lookup c res with
      | Some col => Return (PySeq KArray col)
      | None => Raise key_error
      end
  | _ => Raise key_error
  end.

Fixpoint toy_set (c : string) (col : list pyval) (df : toy_frame)
  : toy_frame :=
  match df with
  | [] => [(c, col)]
  | (c', col') :: df' =>
      if String.eqb c c' then (c, col) :: df' else (c', col') :: toy_set c col df'
  end.

Definition toy_setitem_column (df : toy_frame) (k column : pyval)
  : result toy_frame :=
  match k, column with
  | PyStr c, PySeq _ col => Return (toy_set c col df)
  | _, _ => Raise (Exn "TypeError" "unsupported column")
  end.

Definition ToyPandas : Pandas toy_frame :=
  {| columns_values := map fst;
     getitem_values := toy_getitem_values;
     DataFrame := toy_DataFrame;
     getitem_column := toy_getitem_column;
     setitem_column := toy_setitem_column;
     concat_columns := fun df res => Return (df ++ res) |}.

(** A frame with one column of three inputs, the second not a number. *)
Definition three_rows : toy_frame :=
  [("x", [PyInt 1; PyStr "a"; PyInt 3])].

(** A frame that already has a column named like the label of
    [Doubler]. *)
Definition clashing_frame : toy_frame :=
  [("x", [PyInt 1]); ("double", [PyInt 0])].

(** Three one-argument items, the second not a number. *)
Definition mixed_batch : pyval :=
  PySeq KList [PySeq KTuple [PyInt 1]; PySeq KTuple [PyStr "x"];
               PySeq KTuple [PyInt 3]].

(** A platform like [python3] with other scheduling and another number of
    processors. *)
Definition python3_other : Platform :=
  {| py_major := 3; cpu_count := 16;
     format_exception := show_exn; sched := fun k => k + 1 |}.

(** A featurizer with two arguments: it returns the sum of two numbers. *)
Definition adder_featurize (args : list pyval) : result (list pyval) :=
  match args with
  | [PyInt a; PyInt b] => Return [PyInt (a + b)]
  | [_; _] => Raise (Exn "TypeError" "unsupported operand")
  | _ => Raise (Exn "TypeError" "featurize() takes 2 positional arguments")
  end.

Definition Adder : Featurizer :=
  {| featurize := adder_featurize;
     feature_labels := Return [PyStr "sum"] |}.

(** ** Concrete runs *)

(** The two examples of the specification, sequentially and on the pool. *)
Example doubles_sequential :
  fst (featurize_many (F := Doubler) python3
         (PySeq KList [PySeq KTuple [PyInt 1]; PySeq KTuple [PyInt 2]])
         false false single_job)
  = Return [[PyInt 2]; [PyInt 4]].
Proof. reflexivity. Qed.

Example doubles_pool_tolerant :
  fst (featurize_many (F := Doubler) python3
         (PySeq KList [PySeq KTuple [PyInt 1]; PySeq KTuple [PyStr "x"]])
         true false fresh)
  = Return [[PyInt 2]; [PyNaN]].
Proof. reflexivity. Qed.

Example doubles_python2_scalars :
  featurize_many (F := Doubler) python2
    (PySeq KList [PyInt 1; PyInt 2]) true true fresh
  = (Return [[PyInt 2; PyNaN]; [PyInt 4; PyNaN]],
     World (Some 1%positive) (Some true) (Some true)
           [EvWarn; EvFeaturize [PyInt 1]; EvFeaturize [PyInt 2]]).
Proof. reflexivity. Qed.

Example doubles_fail_fast :
  featurize_many (F := Doubler) python3
    (PySeq KList [PyInt 1; PyStr "x"; PyInt 3]) false false single_job
  = (Raise (Exn "TypeError" "unsupported operand"),
     World (Some 1%positive) (Some false) (Some false)
           [EvFeaturize [PyInt 1]; EvFeaturize [PyStr "x"]]).
Proof. reflexivity. Qed.
(** ** The wrapper *)

Unset Implicit Arguments.

(** For an object with item access, iteration yields its items. *)
Lemma iter_items (v : pyval) :
  has_getitem v = true -> iter v = Some (items v).
Proof. destruct v; try discriminate; reflexivity. Qed.

Section WrapperFacts.

Context {F : Featurizer} (P : Platform).

(** [apply_featurize] is the outcome of the call the wrapper makes. *)
Lemma call_featurize_outcome (x : pyval) (w : world) :
  fst (call_featurize x w) = apply_featurize x.
Proof.
  unfold call_featurize, apply_featurize, unpack, bind, emit, lift.
  destruct (iter x); reflexivity.
Qed.

Lemma featurize_wrapper_run (ig r : bool) (x : pyval) (w : world) :
  __ignore_errors w = Some ig ->
  __return_errors w = Some r ->
  featurize_wrapper P x w
  = (wrapper_result P ig r x, add_trace w (wrapper_events ig x)).
Proof.
  intros Hig Hr. destruct w as [n oi orr tr]. cbn in Hig, Hr. subst oi orr.
  unfold featurize_wrapper, wrapper_result, wrapper_events, apply_featurize,
    try_except, bind, get_return_errors, get_ignore_errors, call_featurize,
    call_feature_labels, unpack, emit, lift, ret, raise, add_trace, nan_vector.
  destruct r, (iter x) as [args|]; cbn;
    try destruct (featurize args); cbn;
    destruct ig; cbn;
    try destruct feature_labels; cbn;
    rewrite <- ?app_assoc, ?app_nil_r; reflexivity.
Qed.

Lemma made_on_incl (xs ys : list pyval) (ev : event) :
  incl xs ys -> made_on xs ev -> made_on ys ev.
Proof.
  intros Hincl. destruct ev as [args| |]; cbn; trivial.
  intros (x & Hx & Hargs). exists x. split; [apply Hincl, Hx | exact Hargs].
Qed.

Lemma wrapper_events_made_on (ig : bool) (x : pyval) :
  Forall (made_on [x]) (wrapper_events ig x).
Proof.
  unfold wrapper_events.
  destruct (iter x) as [args|] eqn:Hiter.
  - constructor.
    + cbn. exists x. split; [left; reflexivity | exact Hiter].
    + destruct (featurize args); [constructor|].
      destruct ig; repeat constructor.
  - destruct ig; repeat constructor.
Qed.

Lemma Forall_made_on_incl (xs ys : list pyval) (evs : list event) :
  incl xs ys -> Forall (made_on xs) evs -> Forall (made_on ys) evs.
Proof.
  intros Hincl. apply Forall_impl. intros ev. apply made_on_incl, Hincl.
Qed.

Lemma wrapper_events_made_on_head (ig : bool) (x : pyval) (xs : list pyval) :
  Forall (made_on (x :: xs)) (wrapper_events ig x).
Proof.
  apply (Forall_made_on_incl [x]); [|apply wrapper_events_made_on].
  intros y [->|[]]. left; reflexivity.
Qed.

Lemma add_trace_add_trace (w : world) (evs1 evs2 : list event) :
  add_trace (add_trace w evs1) evs2 = add_trace w (evs1 ++ evs2).
Proof. unfold add_trace. cbn. rewrite app_assoc. reflexivity. Qed.

(** The list comprehension over the wrapper. *)
Lemma mapM_wrapper_run (ig r : bool) (xs : list pyval) :
  forall w,
    __ignore_errors w = Some ig ->
    __return_errors w = Some r ->
    exists evs,
      mapM (featurize_wrapper P) xs w
      = (sequential P ig r xs, add_trace w evs)
      /\ Forall (made_on xs) evs.
Proof.
  induction xs as [|x xs IH]; intros w Hig Hr.
  - exists []. split; [|constructor].
    cbn. unfold ret, add_trace. rewrite app_nil_r. destruct w; reflexivity.
  - cbn [mapM sequential]. unfold bind at 1.
    rewrite (featurize_wrapper_run ig r x w Hig Hr).
    destruct (wrapper_result P ig r x) as [v|e].
    + destruct (IH (add_trace w (wrapper_events ig x)) Hig Hr)
        as (evs & Hrun & Hevs).
      exists (wrapper_events ig x ++ evs). split.
      * unfold bind. rewrite Hrun, add_trace_add_trace.
        destruct (sequential P ig r xs); reflexivity.
      * apply Forall_app. split; [apply wrapper_events_made_on_head|].
        apply (Forall_made_on_incl xs); [apply incl_tl, incl_refl | exact Hevs].
    + exists (wrapper_events ig x). split; [reflexivity|].
      apply wrapper_events_made_on_head.
Qed.

(** The pool over the wrapper. *)
Lemma pool_map_wrapper_run (ig r : bool) (xs : list pyval) (w : world) :
  __ignore_errors w = Some ig ->
  __return_errors w = Some r ->
  exists evs,
    pool_map P (featurize_wrapper P) xs w = (pooled P ig r xs, add_trace w evs)
    /\ Forall (made_on xs) evs.
Proof.
  intros Hig Hr.
  exists (List.concat (map (wrapper_events ig) xs)). split.
  - unfold pool_map, pooled, add_trace.
    assert (Hruns : map (fun x => featurize_wrapper P x (worker_copy w)) xs
                    = map (fun x => (wrapper_result P ig r x,
                                     add_trace (worker_copy w)
                                               (wrapper_events ig x))) xs).
    { apply map_ext. intros x. apply featurize_wrapper_run; assumption. }
    rewrite Hruns, !map_map. cbn [fst snd add_trace worker_copy trace app].
    change (fun x : pyval => wrapper_result P ig r x)
      with (wrapper_result P ig r).
    change (fun x : pyval => wrapper_events ig x) with (wrapper_events ig).
    destruct (failures (map (wrapper_result P ig r) xs)); reflexivity.
  - induction xs as [|x xs IH]; cbn; [constructor|].
    apply Forall_app. split; [apply wrapper_events_made_on_head|].
    apply (Forall_made_on_incl xs); [apply incl_tl, incl_refl | exact IH].
Qed.

(** What tolerant mode makes of a failure of the transform. *)
Lemma featurize_wrapper_tolerant (labels : list pyval) (r : bool) (x : pyval)
    (e : exn) (w : world) :
  feature_labels = Return labels ->
  apply_featurize x = Raise e ->
  __ignore_errors w = Some true ->
  __return_errors w = Some r ->
  fst (featurize_wrapper P x w)
  = Return (nan_vector P (List.length labels) r e).
Proof.
  intros Hlabels Hfail Hig Hr.
  rewrite (featurize_wrapper_run true r x w Hig Hr). cbn [fst].
  unfold wrapper_result. rewrite Hfail, Hlabels. reflexivity.
Qed.

End WrapperFacts.

(** ** Outcomes of a batch *)

Section OutcomeFacts.

Context {F : Featurizer} (P : Platform).

Lemma sequential_return_iff (ig r : bool) (xs : list pyval) :
  forall vs,
    sequential P ig r xs = Return vs
    <-> map (wrapper_result P ig r) xs = map Return vs.
Proof.
  induction xs as [|x xs IH]; intros vs; cbn [sequential map].
  - split.
    + intros [= <-]. reflexivity.
    + destruct vs; [reflexivity | discriminate].
  - destruct (wrapper_result P ig r x) as [v|e].
    + destruct (sequential P ig r xs) as [vs'|e'].
      * split.
        -- intros [= <-]. cbn [map]. f_equal. apply IH. reflexivity.
        -- destruct vs as [|v0 vs0]; [discriminate|].
           cbn [map]. intros [= <- Hrest].
           apply IH in Hrest. injection Hrest as ->. reflexivity.
      * split; [discriminate|].
        destruct vs as [|v0 vs0]; [discriminate|].
        cbn [map]. intros [= <- Hrest]. apply IH in Hrest. discriminate.
    + split; [discriminate|].
      destruct vs; discriminate.
Qed.

Lemma failures_nil_iff {A : Type} (rs : list (result A)) :
  forall vs, (failures rs = [] /\ values rs = vs) <-> rs = map Return vs.
Proof.
  induction rs as [|[a|e] rs IH]; intros vs; cbn [failures values].
  - split.
    + intros [_ <-]. reflexivity.
    + destruct vs; [split; reflexivity | discriminate].
  - split.
    + intros [Hf <-]. cbn [map]. f_equal. apply IH. split; [exact Hf|reflexivity].
    + destruct vs as [|v vs]; [discriminate|].
      cbn [map]. intros [= -> Hrest]. apply IH in Hrest as [Hf ->].
      split; [exact Hf | reflexivity].
  - split.
    + intros [Hf _]. discriminate.
    + destruct vs; discriminate.
Qed.

Lemma pooled_return_iff (ig r : bool) (xs : list pyval) (vs : list (list pyval)) :
  pooled P ig r xs = Return vs
  <-> map (wrapper_result P ig r) xs = map Return vs.
Proof.
  unfold pooled. rewrite <- failures_nil_iff.
  destruct (failures (map (wrapper_result P ig r) xs)) as [|e es].
  - split.
    + intros [= <-]. split; reflexivity.
    + intros [_ <-]. reflexivity.
  - split; [discriminate | intros [? _]; discriminate].
Qed.

(** A batch returns exactly when the wrapper returns on every item, and
    then with the wrapper's vectors in input order. *)
Lemma batch_return_iff (seq ig r : bool) (xs : list pyval)
    (vs : list (list pyval)) :
  batch_result P seq ig r xs = Return vs
  <-> map (wrapper_result P ig r) xs = map Return vs.
Proof.
  destruct seq; cbn [batch_result].
  - apply sequential_return_iff.
  - apply pooled_return_iff.
Qed.

Lemma sequential_raise (ig r : bool) (xs : list pyval) (e : exn) :
  sequential P ig r xs = Raise e ->
  exists x, In x xs /\ wrapper_result P ig r x = Raise e.
Proof.
  induction xs as [|x xs IH]; cbn [sequential]; [discriminate|].
  destruct (wrapper_result P ig r x) as [v|e0] eqn:Hx.
  - destruct (sequential P ig r xs) as [vs|e1]; [discriminate|].
    intros [= <-]. destruct (IH eq_refl) as (y & Hy & Hres).
    exists y. split; [right; exact Hy | exact Hres].
  - intros [= <-]. exists x. split; [left; reflexivity | exact Hx].
Qed.

Lemma failures_In {A : Type} (f : pyval -> result A) (xs : list pyval)
    (e : exn) :
  In e (failures (map f xs)) -> exists x, In x xs /\ f x = Raise e.
Proof.
  induction xs as [|x xs IH]; cbn [map failures]; [intros []|].
  destruct (f x) as [a|e0] eqn:Hx.
  - intros Hin. destruct (IH Hin) as (y & Hy & Hres).
    exists y. split; [right; exact Hy | exact Hres].
  - intros [<-|Hin].
    + exists x. split; [left; reflexivity | exact Hx].
    + destruct (IH Hin) as (y & Hy & Hres).
      exists y. split; [right; exact Hy | exact Hres].
Qed.

Lemma reported_In (e0 : exn) (es : list exn) (k : nat) :
  In (nth (k mod List.length (e0 :: es)) (e0 :: es) e0) (e0 :: es).
Proof. apply nth_In. apply Nat.mod_upper_bound. discriminate. Qed.

Lemma pooled_raise (ig r : bool) (xs : list pyval) (e : exn) :
  pooled P ig r xs = Raise e ->
  exists x, In x xs /\ wrapper_result P ig r x = Raise e.
Proof.
  unfold pooled.
  destruct (failures (map (wrapper_result P ig r) xs)) as [|e0 es] eqn:Hf;
    [discriminate|].
  intros Hraise. apply failures_In. rewrite Hf.
  pose proof (reported_In e0 es (sched P (List.length (e0 :: es)))) as Hin.
  congruence.
Qed.

(** A batch that raises re-raises what the wrapper raised on one of the
    items. *)
Lemma batch_raise (seq ig r : bool) (xs : list pyval) (e : exn) :
  batch_result P seq ig r xs = Raise e ->
  exists x, In x xs /\ wrapper_result P ig r x = Raise e.
Proof.
  destruct seq; cbn [batch_result].
  - apply sequential_raise.
  - apply pooled_raise.
Qed.

End OutcomeFacts.

(** ** The batch call *)

Section BatchFacts.

Context {F : Featurizer} (P : Platform).

Lemma prepared_cons (entries x0 : pyval) (rest : list pyval) :
  items entries = x0 :: rest ->
  items (if negb (is_tuple_like x0) then zip entries else entries)
  = prepared entries.
Proof.
  intros Hitems. unfold prepared, as_args, wraps. rewrite Hitems.
  destruct (is_tuple_like x0); cbn [negb].
  - rewrite Hitems, map_id. reflexivity.
  - unfold zip. cbn [items]. rewrite Hitems. reflexivity.
Qed.

(** One entry into the method. *)
Lemma featurize_many_fuel_S (fuel : nat) (entries : pyval) (ig r : bool) :
  featurize_many_fuel P (S fuel) entries ig r
  = if r && negb ig then raise config_error
    else
      (set_ignore_errors ig ;;
       set_return_errors r ;;
       if negb (has_getitem entries) then raise shape_error
       else if Nat.eqb (len entries) 0 then ret []
       else
         x0 <- getitem entries 0 ;;
         let entries := if negb (is_tuple_like x0) then zip entries
                        else entries in
         n <- n_jobs P ;;
         if Pos.eqb n 1 then mapM (featurize_wrapper P) (items entries)
         else if Z.ltb (py_major P) 3 then
           emit EvWarn ;;
           set_n_jobs 1 ;;
           featurize_many_fuel P fuel entries ig r
         else
           pool_map P (featurize_wrapper P) (items entries)).
Proof. reflexivity. Qed.

(** A call that finds [n_jobs] equal to 1 and a tuple-like first item. *)
Lemma featurize_many_fuel_single (n : nat) (ig r : bool) (entries x0 : pyval)
    (rest : list pyval) (w : world) :
  (r = true -> ig = true) ->
  has_getitem entries = true ->
  items entries = x0 :: rest ->
  is_tuple_like x0 = true ->
  jobs P w = 1%positive ->
  featurize_many_fuel P (S n) entries ig r w
  = mapM (featurize_wrapper P) (items entries) (with_flags ig r w).
Proof.
  intros Hcfg Hget Hitems Htl Hjobs.
  rewrite featurize_many_fuel_S.
  replace (r && negb ig) with false
    by (destruct r, ig; try reflexivity; discriminate (Hcfg eq_refl)).
  unfold bind, set_ignore_errors, set_return_errors, n_jobs, getitem, len.
  cbn [_n_jobs __ignore_errors __return_errors trace].
  rewrite Hget, Hitems. cbn [negb List.length Nat.eqb nth_error ret].
  rewrite Htl. cbn [negb _n_jobs].
  fold (jobs P w). rewrite Hjobs. cbn [Pos.eqb].
  rewrite ?Hitems. reflexivity.
Qed.

(** The three ways a call on a non-empty sequence ends. *)
Lemma featurize_many_fuel_run (n : nat) (ig r : bool) (entries : pyval)
    (w : world) :
  (r = true -> ig = true) ->
  has_getitem entries = true ->
  items entries <> [] ->
  featurize_many_fuel P (S (S n)) entries ig r w
  = if Pos.eqb (jobs P w) 1 then
      mapM (featurize_wrapper P) (prepared entries) (with_flags ig r w)
    else if Z.ltb (py_major P) 3 then
      mapM (featurize_wrapper P) (prepared entries)
           (World (Some 1%positive) (Some ig) (Some r) (trace w ++ [EvWarn]))
    else
      pool_map P (featurize_wrapper P) (prepared entries) (with_flags ig r w).
Proof.
  intros Hcfg Hget Hne.
  destruct (items entries) as [|x0 rest] eqn:Hitems; [congruence|].
  pose proof (prepared_cons entries x0 rest Hitems) as Hprep.
  rewrite featurize_many_fuel_S.
  replace (r && negb ig) with false
    by (destruct r, ig; try reflexivity; discriminate (Hcfg eq_refl)).
  unfold bind at 1 2 3 4, set_ignore_errors, set_return_errors, n_jobs,
    getitem, len.
  cbn [_n_jobs __ignore_errors __return_errors trace].
  rewrite Hget, Hitems.
  cbn [negb List.length Nat.eqb nth_error ret _n_jobs].
  fold (jobs P w).
  destruct (Pos.eqb (jobs P w) 1) eqn:Hjobs.
  - rewrite Hprep. reflexivity.
  - destruct (Z.ltb (py_major P) 3) eqn:Hpy.
    + unfold bind, emit, set_n_jobs.
      cbn [_n_jobs __ignore_errors __return_errors trace].
      set (entries' := if negb (is_tuple_like x0) then zip entries
                       else entries) in *.
      set (w2 := World (Some 1%positive) (Some ig) (Some r)
                       (trace w ++ [EvWarn])).
      assert (Hitems' : exists y0 rest',
                 items entries' = y0 :: rest' /\ is_tuple_like y0 = true).
      { subst entries'. destruct (is_tuple_like x0) eqn:Htl; cbn [negb].
        - exists x0, rest. split; assumption.
        - unfold zip. cbn [items]. rewrite Hitems. cbn [map].
          eexists _, _. split; reflexivity. }
      destruct Hitems' as (y0 & rest' & Hit' & Htl').
      assert (Hget' : has_getitem entries' = true).
      { subst entries'. destruct (negb (is_tuple_like x0));
          [reflexivity | exact Hget]. }
      rewrite (featurize_many_fuel_single n ig r entries' y0 rest' w2
                 Hcfg Hget' Hit' Htl' eq_refl).
      rewrite Hprep. reflexivity.
    + rewrite Hprep. reflexivity.
Qed.

(** Every call, by cases on the three checks of lines 185 to 198. *)
Lemma featurize_many_fuel_cases (n : nat) (ig r : bool) (entries : pyval)
    (w : world) :
  featurize_many_fuel P (S (S n)) entries ig r w
  = if r && negb ig then (Raise config_error, w)
    else if negb (has_getitem entries) then
      (Raise shape_error, with_flags ig r w)
    else
      match items entries with
      | [] => (Return [], with_flags ig r w)
      | _ :: _ =>
          if Pos.eqb (jobs P w) 1 then
            mapM (featurize_wrapper P) (prepared entries) (with_flags ig r w)
          else if Z.ltb (py_major P) 3 then
            mapM (featurize_wrapper P) (prepared entries)
                 (World (Some 1%positive) (Some ig) (Some r)
                        (trace w ++ [EvWarn]))
          else
            pool_map P (featurize_wrapper P) (prepared entries)
                     (with_flags ig r w)
      end.
Proof.
  destruct (r && negb ig) eqn:Hcfg.
  - rewrite featurize_many_fuel_S, Hcfg. reflexivity.
  - assert (Hvalid : r = true -> ig = true)
      by (intros ->; destruct ig; [reflexivity | discriminate Hcfg]).
    destruct (has_getitem entries) eqn:Hget; cbn [negb].
    + destruct (items entries) as [|x0 rest] eqn:Hitems.
      * rewrite featurize_many_fuel_S, Hcfg.
        unfold bind, set_ignore_errors, set_return_errors, len.
        rewrite Hget, Hitems. reflexivity.
      * rewrite (featurize_many_fuel_run n ig r entries w Hvalid Hget)
          by (rewrite Hitems; discriminate).
        reflexivity.
    + rewrite featurize_many_fuel_S, Hcfg.
      unfold bind, set_ignore_errors, set_return_errors.
      rewrite Hget. reflexivity.
Qed.

(** Depth two is enough: more fuel changes nothing, so the fallback of
    the model for exhausted fuel is never what a call returns. *)
Lemma featurize_many_fuel_enough (n : nat) (ig r : bool) (entries : pyval)
    (w : world) :
  featurize_many_fuel P (S (S n)) entries ig r w
  = featurize_many P entries ig r w.
Proof.
  unfold featurize_many. rewrite !featurize_many_fuel_cases. reflexivity.
Qed.

Lemma featurize_many_cases (ig r : bool) (entries : pyval) (w : world) :
  featurize_many P entries ig r w
  = if r && negb ig then (Raise config_error, w)
    else if negb (has_getitem entries) then
      (Raise shape_error, with_flags ig r w)
    else
      match items entries with
      | [] => (Return [], with_flags ig r w)
      | _ :: _ =>
          if Pos.eqb (jobs P w) 1 then
            mapM (featurize_wrapper P) (prepared entries) (with_flags ig r w)
          else if Z.ltb (py_major P) 3 then
            mapM (featurize_wrapper P) (prepared entries)
                 (World (Some 1%positive) (Some ig) (Some r)
                        (trace w ++ [EvWarn]))
          else
            pool_map P (featurize_wrapper P) (prepared entries)
                     (with_flags ig r w)
      end.
Proof. apply (featurize_many_fuel_cases 0). Qed.

Lemma prepared_nil (entries : pyval) :
  items entries = [] -> prepared entries = [].
Proof. intros H. unfold prepared. rewrite H. reflexivity. Qed.

(** The value or exception a call ends with. *)
Lemma featurize_many_outcome (ig r : bool) (entries : pyval) (w : world) :
  fst (featurize_many P entries ig r w)
  = if r && negb ig then Raise config_error
    else if negb (has_getitem entries) then Raise shape_error
    else batch_result P (sequentially P w) ig r (prepared entries).
Proof.
  rewrite featurize_many_cases.
  destruct (r && negb ig); [reflexivity|].
  destruct (negb (has_getitem entries)); [reflexivity|].
  destruct (items entries) as [|x0 rest] eqn:Hitems.
  - rewrite (prepared_nil _ Hitems).
    unfold batch_result, pooled. cbn.
    destruct (sequentially P w); reflexivity.
  - unfold sequentially, batch_result.
    destruct (Pos.eqb (jobs P w) 1); cbn [orb].
    + destruct (mapM_wrapper_run P ig r (prepared entries)
                  (with_flags ig r w) eq_refl eq_refl) as (evs & -> & _).
      reflexivity.
    + destruct (Z.ltb (py_major P) 3).
      * destruct (mapM_wrapper_run P ig r (prepared entries)
                    (World (Some 1%positive) (Some ig) (Some r)
                           (trace w ++ [EvWarn])) eq_refl eq_refl)
          as (evs & -> & _).
        reflexivity.
      * destruct (pool_map_wrapper_run P ig r (prepared entries)
                    (with_flags ig r w) eq_refl eq_refl) as (evs & -> & _).
        reflexivity.
Qed.


End BatchFacts.

(** ** The properties of the specification *)

Section Claims.

Context {F : Featurizer} (P : Platform).

(** The flags satisfy the precondition of line 185. *)
Lemma valid_flags (ig r : bool) :
  (r = true -> ig = true) -> r && negb ig = false.
Proof. destruct r, ig; intros H; try reflexivity. discriminate (H eq_refl). Qed.

(** A call returns exactly when the flags are accepted, the input has
    item access, and the wrapper returns on every prepared item. *)
Lemma featurize_many_returns_iff (ig r : bool) (entries : pyval) (w : world)
    (res : list (list pyval)) :
  fst (featurize_many P entries ig r w) = Return res
  <-> (r = true -> ig = true)
      /\ has_getitem entries = true
      /\ map (wrapper_result P ig r) (prepared entries) = map Return res.
Proof.
  rewrite featurize_many_outcome. split.
  - destruct r, ig; cbn [andb negb]; try discriminate;
      (destruct (has_getitem entries); cbn [negb]; [|discriminate]);
      intros H; apply batch_return_iff in H; repeat split; auto.
  - intros (Hcfg & Hget & Hmap).
    rewrite (valid_flags ig r Hcfg), Hget. cbn [negb].
    apply batch_return_iff. exact Hmap.
Qed.

(** C2: with [return_errors=True] and [ignore_errors=False] the call
    raises the configuration [ValueError] whatever the input is, and the
    featurizer is left exactly as it was: no attribute is assigned and
    nothing is added to the trace of calls, so the transform was not
    invoked on any item. *)
Theorem config_error_before_any_item (entries : pyval) (w : world) :
  featurize_many P entries false true w = (Raise config_error, w)
  /\ trace (snd (featurize_many P entries false true w)) = trace w.
Proof. split; reflexivity. Qed.

(** C10: the configuration check comes first.  With [return_errors=True]
    and [ignore_errors=False] every input, also one without item access
    and also an empty sequence, gets the configuration [ValueError]: not
    the input-shape error and not the empty result. *)
Theorem config_check_takes_precedence (entries : pyval) (w : world) :
  fst (featurize_many P entries false true w) = Raise config_error
  /\ fst (featurize_many P entries false true w) <> Raise shape_error
  /\ fst (featurize_many P entries false true w) <> Return [].
Proof. repeat split; cbn; discriminate. Qed.

(** C8: on an empty sequence, with flags that pass the configuration
    check, the call returns the empty list; it only stores the two flags,
    and the trace of calls is unchanged: neither the transform nor the
    feature-label query was invoked. *)
Theorem empty_sequence_returns_empty (ig r : bool) (entries : pyval)
    (w : world) :
  (r = true -> ig = true) ->
  has_getitem entries = true ->
  items entries = [] ->
  featurize_many P entries ig r w = (Return [], with_flags ig r w)
  /\ trace (snd (featurize_many P entries ig r w)) = trace w.
Proof.
  intros Hcfg Hget Hitems.
  rewrite featurize_many_cases, (valid_flags ig r Hcfg), Hget, Hitems.
  split; reflexivity.
Qed.

(** C9, as amended: an input without item access, given with flags that
    pass the configuration check, is rejected with the input-shape
    error; the call has only stored the two flags, and the trace of calls
    is unchanged: the transform was invoked on nothing. *)
Theorem non_sequence_rejected (ig r : bool) (entries : pyval) (w : world) :
  (r = true -> ig = true) ->
  has_getitem entries = false ->
  featurize_many P entries ig r w = (Raise shape_error, with_flags ig r w)
  /\ trace (snd (featurize_many P entries ig r w)) = trace w.
Proof.
  intros Hcfg Hget.
  rewrite featurize_many_cases, (valid_flags ig r Hcfg), Hget.
  split; reflexivity.
Qed.

(** The wrapper under [ignore_errors=False] raises exactly what the
    transform raises. *)
Lemma wrapper_result_strict (r : bool) (x : pyval) (e : exn) :
  wrapper_result P false r x = Raise e <-> apply_featurize x = Raise e.
Proof.
  unfold wrapper_result. destruct (apply_featurize x) as [v|e0].
  - split; discriminate.
  - reflexivity.
Qed.

Lemma In_prepared (entries y : pyval) :
  In y (prepared entries)
  <-> exists x, In x (items entries) /\ y = as_args entries x.
Proof.
  unfold prepared. rewrite in_map_iff. split.
  - intros (x & <- & Hx). exists x. split; [exact Hx | reflexivity].
  - intros (x & Hx & ->). exists x. split; [reflexivity | exact Hx].
Qed.






(** In tolerant mode, with a label query that answers, the wrapper
    returns on every item. *)
Lemma tolerant_total (labels : list pyval) (r : bool) (xs : list pyval) :
  feature_labels = Return labels ->
  exists vs, map (wrapper_result P true r) xs = map Return vs
             /\ List.length vs = List.length xs.
Proof.
  intros Hlabels. induction xs as [|x xs (vs & Hvs & Hlen)].
  - exists []. split; reflexivity.
  - assert (Hx : exists v, wrapper_result P true r x = Return v).
    { unfold wrapper_result. rewrite Hlabels.
      destruct (apply_featurize x); eexists; reflexivity. }
    destruct Hx as (v & Hv). exists (v :: vs). split.
    + cbn [map]. rewrite Hv, Hvs. reflexivity.
    + cbn [List.length]. rewrite Hlen. reflexivity.
Qed.

(** Where the code does isolate a failure.  With a label query that
    answers, take a sequence [e1] with an item [bad] on which the
    transform raises, and the sequence [e2] without that item.  (1) Under
    [ignore_errors=True] the wrapper returns for [bad] the vector of as
    many NaN as there are labels, followed by the formatted trace when
    [return_errors=True].  (2) The tolerant batch on [e1] has that vector
    at the place of [bad], and around it the vectors of the tolerant
    batch on [e2], as long as the test of line 201 on the first item
    comes out the same for both sequences (or nothing is left); when it
    does not, the other items are affected, see
    [tolerant_failure_not_isolated]. *)
Theorem tolerant_failure_isolated (labels : list pyval) (r : bool)
    (e1 e2 : pyval) (pre post : list pyval) (bad : pyval) (err : exn)
    (w w' : world) :
  feature_labels = Return labels ->
  has_getitem e1 = true ->
  has_getitem e2 = true ->
  items e1 = pre ++ bad :: post ->
  items e2 = pre ++ post ->
  pre ++ post = [] \/ wraps e1 = wraps e2 ->
  apply_featurize (as_args e1 bad) = Raise err ->
  __ignore_errors w' = Some true ->
  __return_errors w' = Some r ->
  fst (featurize_wrapper P (as_args e1 bad) w')
  = Return (nan_vector P (List.length labels) r err)
  /\ exists rs1 rs2,
       List.length rs1 = List.length pre
       /\ fst (featurize_many P e1 true r w)
          = Return (rs1 ++ nan_vector P (List.length labels) r err :: rs2)
       /\ fst (featurize_many P e2 true r w) = Return (rs1 ++ rs2).
Proof.
  intros Hlabels Hg1 Hg2 Hi1 Hi2 Hsame Hfail Hig Hr.
  assert (Hbad : wrapper_result P true r (as_args e1 bad)
                 = Return (nan_vector P (List.length labels) r err))
    by (unfold wrapper_result; rewrite Hfail, Hlabels; reflexivity).
  split.
  - exact (featurize_wrapper_tolerant P labels r _ err w' Hlabels Hfail Hig Hr).
  - destruct (tolerant_total labels r (map (as_args e1) pre) Hlabels)
      as (rs1 & Hrs1 & Hlen1).
    destruct (tolerant_total labels r (map (as_args e1) post) Hlabels)
      as (rs2 & Hrs2 & Hlen2).
    rewrite length_map in Hlen1, Hlen2.
    exists rs1, rs2. split; [exact Hlen1|]. split.
    + apply featurize_many_returns_iff.
      split; [reflexivity|]. split; [exact Hg1|].
      unfold prepared. rewrite Hi1, !map_app. cbn [map].
      rewrite Hrs1, Hrs2, Hbad. reflexivity.
    + apply featurize_many_returns_iff.
      split; [reflexivity|]. split; [exact Hg2|].
      unfold prepared. rewrite Hi2.
      destruct Hsame as [Hnil|Hwraps].
      * rewrite Hnil. apply app_eq_nil in Hnil as [-> ->].
        destruct rs1; [|discriminate]. destruct rs2; [|discriminate].
        reflexivity.
      * replace (as_args e2) with (as_args e1)
          by (unfold as_args; rewrite Hwraps; reflexivity).
        rewrite !map_app, Hrs1, Hrs2. reflexivity.
Qed.

(** When the transform returns on an item, the wrapper returns the same
    vector under both values of [ignore_errors]. *)
Lemma all_succeed_results (ys : list pyval) :
  (forall y, In y ys -> is_return (apply_featurize y) = true) ->
  exists vs, forall ig, map (wrapper_result P ig false) ys = map Return vs.
Proof.
  induction ys as [|y ys IH]; intros Hall.
  - exists []. reflexivity.
  - destruct IH as (vs & Hvs); [intros z Hz; apply Hall; right; exact Hz|].
    specialize (Hall y (or_introl eq_refl)).
    destruct (apply_featurize y) as [v|e] eqn:Hy; [|discriminate].
    exists (v :: vs). intros ig. cbn [map]. rewrite Hvs.
    unfold wrapper_result. rewrite Hy. reflexivity.
Qed.

(** C6, as amended: on a sequence where the transform returns on every
    item, the call with [ignore_errors=True] and the call with
    [ignore_errors=False], both with [return_errors=False], return the
    same result. *)
Theorem tolerant_equals_strict_on_success (entries : pyval) (w : world) :
  has_getitem entries = true ->
  (forall x, In x (items entries) ->
             is_return (apply_featurize (as_args entries x)) = true) ->
  exists res,
    fst (featurize_many P entries true false w) = Return res
    /\ fst (featurize_many P entries false false w) = Return res.
Proof.
  intros Hget Hall.
  destruct (all_succeed_results (prepared entries)) as (vs & Hvs).
  { intros y Hy. apply In_prepared in Hy as (x & Hx & ->). apply Hall, Hx. }
  exists vs. split; apply featurize_many_returns_iff;
    (split; [discriminate|]); (split; [exact Hget|]); apply Hvs.
Qed.




End Claims.

(** ** The theorems at concrete inputs *)

(** C8 at the empty list, in tolerant mode. *)
Lemma empty_sequence_returns_empty_witness :
  (false = true -> true = true)
  /\ has_getitem (PySeq KList []) = true
  /\ items (PySeq KList []) = []
  /\ featurize_many (F := Doubler) python3 (PySeq KList []) true false fresh
     = (Return [], with_flags true false fresh)
  /\ trace (snd (featurize_many (F := Doubler) python3 (PySeq KList [])
                   true false fresh)) = trace fresh.
Proof.
  split; [intros _; reflexivity|].
  split; [reflexivity|].
  split; [reflexivity|].
  apply (empty_sequence_returns_empty (F := Doubler) python3 true false
           (PySeq KList []) fresh); [intros _|..]; reflexivity.
Defined.

(** C9 as stated fails: [None] has no item access, but with
    [return_errors=True] and [ignore_errors=False] the error raised is the
    configuration error, not the input-shape error. *)
Lemma non_sequence_counterexample :
  has_getitem PyNone = false
  /\ fst (featurize_many (F := Doubler) python3 PyNone false true fresh)
     = Raise config_error
  /\ fst (featurize_many (F := Doubler) python3 PyNone false true fresh)
     <> Raise shape_error.
Proof. split; [reflexivity|]. split; [reflexivity|]. cbn. discriminate. Qed.

(** C9 as amended, at [None] with the default flags. *)
Lemma non_sequence_rejected_witness :
  (false = true -> false = true)
  /\ has_getitem PyNone = false
  /\ featurize_many (F := Doubler) python3 PyNone false false fresh
     = (Raise shape_error, with_flags false false fresh)
  /\ trace (snd (featurize_many (F := Doubler) python3 PyNone false false
                   fresh)) = trace fresh.
Proof.
  split; [intros H; exact H|].
  split; [reflexivity|].
  apply (non_sequence_rejected (F := Doubler) python3 false false PyNone
           fresh); [intros H; exact H | reflexivity].
Defined.




(** C4: in tolerant mode the vectors of the other items are to be what
    they are without the failing item.  The code does not keep this when
    the failing item comes first: line 201 decides from [entries[0]]
    alone whether every item is wrapped in a one-element tuple, although
    the comment on line 200 makes it a matter of the number of arguments
    of [featurize].  With a transform of two arguments the failing [None]
    in front makes the call zip the pairs, each pair is passed as one
    argument, and every row comes out as NaN; without the [None] the same
    pairs get their sums.  With a transform of one argument that is a
    pair it is the other way round: the pair gets its sum behind the
    [None] and NaN without it. *)
Theorem tolerant_failure_not_isolated :
  (is_return (apply_featurize (F := Adder) (tuple1 PyNone)) = false
   /\ fst (featurize_many (F := Adder) python3
             (PySeq KList [PyNone; PySeq KTuple [PyInt 1; PyInt 2];
                           PySeq KTuple [PyInt 3; PyInt 4]])
             true false single_job)
      = Return [[PyNaN]; [PyNaN]; [PyNaN]]
   /\ fst (featurize_many (F := Adder) python3
             (PySeq KList [PySeq KTuple [PyInt 1; PyInt 2];
                           PySeq KTuple [PyInt 3; PyInt 4]])
             true false single_job)
      = Return [[PyInt 3]; [PyInt 7]])
  /\ (is_return (apply_featurize (F := PairSum) (tuple1 PyNone)) = false
      /\ fst (featurize_many (F := PairSum) python3
                (PySeq KList [PyNone; PySeq KTuple [PyInt 1; PyInt 2]])
                true false single_job)
         = Return [[PyNaN]; [PyInt 3]]
      /\ fst (featurize_many (F := PairSum) python3
                (PySeq KList [PySeq KTuple [PyInt 1; PyInt 2]])
                true false single_job)
         = Return [[PyNaN]]).
Proof. repeat split. Qed.

(** Failure isolation on the pool with [return_errors=True]: the middle
    item of three fails. *)
Lemma tolerant_failure_isolated_witness :
  feature_labels (Featurizer := Doubler) = Return [PyStr "double"]
  /\ has_getitem (PySeq KList [PySeq KTuple [PyInt 1];
                               PySeq KTuple [PyStr "x"];
                               PySeq KTuple [PyInt 3]]) = true
  /\ has_getitem (PySeq KList [PySeq KTuple [PyInt 1];
                               PySeq KTuple [PyInt 3]]) = true
  /\ fst (featurize_wrapper (F := Doubler) python3
            (PySeq KTuple [PyStr "x"]) (with_flags true true fresh))
     = Return [PyNaN; PyStr "TypeError: unsupported operand"]
  /\ exists rs1 rs2,
       List.length rs1 = 1
       /\ fst (featurize_many (F := Doubler) python3
                 (PySeq KList [PySeq KTuple [PyInt 1];
                               PySeq KTuple [PyStr "x"];
                               PySeq KTuple [PyInt 3]]) true true fresh)
          = Return (rs1 ++ [PyNaN; PyStr "TypeError: unsupported operand"]
                        :: rs2)
       /\ fst (featurize_many (F := Doubler) python3
                 (PySeq KList [PySeq KTuple [PyInt 1];
                               PySeq KTuple [PyInt 3]]) true true fresh)
          = Return (rs1 ++ rs2).
Proof.
  split; [reflexivity|].
  split; [reflexivity|].
  split; [reflexivity|].
  apply (tolerant_failure_isolated (F := Doubler) python3
           [PyStr "double"] true
           (PySeq KList [PySeq KTuple [PyInt 1]; PySeq KTuple [PyStr "x"];
                         PySeq KTuple [PyInt 3]])
           (PySeq KList [PySeq KTuple [PyInt 1]; PySeq KTuple [PyInt 3]])
           [PySeq KTuple [PyInt 1]] [PySeq KTuple [PyInt 3]]
           (PySeq KTuple [PyStr "x"])
           (Exn "TypeError" "unsupported operand")
           fresh (with_flags true true fresh));
    try reflexivity.
  right. reflexivity.
Defined.



(** C6 as stated fails with [return_errors=True] held equal: the
    transform returns on the only item, the tolerant call returns, and
    the call with [ignore_errors=False] raises the configuration
    error. *)
Lemma tolerant_equals_strict_counterexample :
  is_return (apply_featurize (F := Doubler) (PySeq KTuple [PyInt 1])) = true
  /\ fst (featurize_many (F := Doubler) python3
            (PySeq KList [PySeq KTuple [PyInt 1]]) true true single_job)
     = Return [[PyInt 2; PyNaN]]
  /\ fst (featurize_many (F := Doubler) python3
            (PySeq KList [PySeq KTuple [PyInt 1]]) false true single_job)
     = Raise config_error
  /\ fst (featurize_many (F := Doubler) python3
            (PySeq KList [PySeq KTuple [PyInt 1]]) true true single_job)
     <> fst (featurize_many (F := Doubler) python3
               (PySeq KList [PySeq KTuple [PyInt 1]]) false true single_job).
Proof. repeat (split; [reflexivity|]). cbn. discriminate. Qed.

(** C6 as amended, on two items that both succeed. *)
Lemma tolerant_equals_strict_on_success_witness :
  has_getitem (PySeq KList [PySeq KTuple [PyInt 1]; PySeq KTuple [PyInt 2]])
  = true
  /\ (forall x,
        In x (items (PySeq KList [PySeq KTuple [PyInt 1];
                                  PySeq KTuple [PyInt 2]])) ->
        is_return
          (apply_featurize (F := Doubler)
             (as_args (PySeq KList [PySeq KTuple [PyInt 1];
                                    PySeq KTuple [PyInt 2]]) x)) = true)
  /\ exists res,
       fst (featurize_many (F := Doubler) python3
              (PySeq KList [PySeq KTuple [PyInt 1]; PySeq KTuple [PyInt 2]])
              true false fresh) = Return res
       /\ fst (featurize_many (F := Doubler) python3
                 (PySeq KList [PySeq KTuple [PyInt 1]; PySeq KTuple [PyInt 2]])
                 false false fresh) = Return res.
Proof.
  split; [reflexivity|].
  split.
  - intros x [<-|[<-|[]]]; reflexivity.
  - apply (tolerant_equals_strict_on_success (F := Doubler) python3
             (PySeq KList [PySeq KTuple [PyInt 1]; PySeq KTuple [PyInt 2]])
             fresh); [reflexivity|].
    intros x [<-|[<-|[]]]; reflexivity.
Defined.


(** ** Further properties of the driver *)

Section ExactRuns.

Context {F : Featurizer} (P : Platform).

Lemma mapM_wrapper_exact (ig r : bool) (xs : list pyval) :
  forall w,
    __ignore_errors w = Some ig ->
    __return_errors w = Some r ->
    mapM (featurize_wrapper P) xs w
    = (sequential P ig r xs, add_trace w (sequential_events P ig r xs)).
Proof.
  induction xs as [|x xs IH]; intros w Hig Hr.
  - cbn. unfold ret, add_trace. rewrite app_nil_r. destruct w; reflexivity.
  - cbn [mapM sequential sequential_events]. unfold bind at 1.
    rewrite (featurize_wrapper_run P ig r x w Hig Hr).
    destruct (wrapper_result P ig r x) as [v|e].
    + unfold bind.
      rewrite (IH (add_trace w (wrapper_events ig x)) Hig Hr).
      rewrite add_trace_add_trace.
      destruct (sequential P ig r xs); reflexivity.
    + rewrite app_nil_r. reflexivity.
Qed.

Lemma pool_map_wrapper_exact (ig r : bool) (xs : list pyval) (w : world) :
  __ignore_errors w = Some ig ->
  __return_errors w = Some r ->
  pool_map P (featurize_wrapper P) xs w
  = (pooled P ig r xs,
     add_trace w (List.concat (map (wrapper_events ig) xs))).
Proof.
  intros Hig Hr. unfold pool_map, pooled, add_trace.
  assert (Hruns : map (fun x => featurize_wrapper P x (worker_copy w)) xs
                  = map (fun x => (wrapper_result P ig r x,
                                   add_trace (worker_copy w)
                                             (wrapper_events ig x))) xs).
  { apply map_ext. intros x. apply featurize_wrapper_run; assumption. }
  rewrite Hruns, !map_map. cbn [fst snd add_trace worker_copy trace app].
  change (fun x : pyval => wrapper_result P ig r x)
    with (wrapper_result P ig r).
  change (fun x : pyval => wrapper_events ig x) with (wrapper_events ig).
  destruct (failures (map (wrapper_result P ig r) xs)); reflexivity.
Qed.

(** A call on a non-empty sequence with accepted flags, in full: the
    outcome and the world it leaves. *)
Lemma featurize_many_exact (ig r : bool) (entries : pyval) (w : world) :
  (r = true -> ig = true) ->
  has_getitem entries = true ->
  items entries <> [] ->
  featurize_many P entries ig r w
  = (batch_result P (sequentially P w) ig r (prepared entries),
     World (if falls_back P entries ig r w then Some 1%positive
            else _n_jobs w)
           (Some ig) (Some r)
           (trace w
            ++ (if falls_back P entries ig r w then [EvWarn] else [])
            ++ batch_events P (sequentially P w) ig r (prepared entries))).
Proof.
  intros Hcfg Hget Hne.
  rewrite featurize_many_cases.
  unfold falls_back, sequentially, len.
  assert (Hflags : r && negb ig = false)
    by (destruct r, ig; try reflexivity; discriminate (Hcfg eq_refl)).
  rewrite Hflags, Hget. cbn [negb andb].
  destruct (items entries) as [|x0 rest] eqn:Hitems; [congruence|].
  cbn [List.length Nat.eqb negb andb].
  destruct (Pos.eqb (jobs P w) 1); cbn [negb andb orb].
  - rewrite (mapM_wrapper_exact ig r _ (with_flags ig r w) eq_refl eq_refl).
    reflexivity.
  - destruct (Z.ltb (py_major P) 3); cbn [batch_result batch_events].
    + rewrite (mapM_wrapper_exact ig r _
                 (World (Some 1%positive) (Some ig) (Some r)
                        (trace w ++ [EvWarn])) eq_refl eq_refl).
      unfold add_trace. cbn. rewrite <- app_assoc. reflexivity.
    + rewrite (pool_map_wrapper_exact ig r _ (with_flags ig r w)
                 eq_refl eq_refl).
      reflexivity.
Qed.

End ExactRuns.

Section StateEffects.

Context {F : Featurizer} (P : Platform).

Lemma warnings_app (evs1 evs2 : list event) :
  warnings (evs1 ++ evs2) = warnings evs1 + warnings evs2.
Proof.
  induction evs1 as [|[args| |] evs1 IH]; cbn; rewrite ?IH; reflexivity.
Qed.

Lemma warnings_wrapper_events (ig : bool) (x : pyval) :
  warnings (wrapper_events ig x) = 0.
Proof.
  unfold wrapper_events.
  destruct (iter x) as [args|]; [destruct (featurize args)|];
    destruct ig; reflexivity.
Qed.

Lemma warnings_batch_events (seq ig r : bool) (xs : list pyval) :
  warnings (batch_events P seq ig r xs) = 0.
Proof.
  destruct seq; cbn [batch_events].
  - induction xs as [|x xs IH]; [reflexivity|].
    cbn [sequential_events].
    rewrite warnings_app, warnings_wrapper_events.
    destruct (wrapper_result P ig r x); [exact IH | reflexivity].
  - induction xs as [|x xs IH]; [reflexivity|].
    cbn [map List.concat].
    rewrite warnings_app, warnings_wrapper_events. exact IH.
Qed.

(** X1: a call whose flags pass the configuration check leaves the two
    flags stored on the featurizer, whatever the input is and however the
    call ends (input-shape error, empty result, a batch, or an exception
    of the transform). *)
Theorem accepted_call_stores_flags (ig r : bool) (entries : pyval)
    (w : world) :
  (r = true -> ig = true) ->
  __ignore_errors (snd (featurize_many P entries ig r w)) = Some ig
  /\ __return_errors (snd (featurize_many P entries ig r w)) = Some r.
Proof.
  intros Hcfg.
  destruct (has_getitem entries) eqn:Hget.
  - destruct (items entries) as [|x0 rest] eqn:Hitems.
    + rewrite featurize_many_cases, (valid_flags ig r Hcfg), Hget, Hitems.
      split; reflexivity.
    + rewrite (featurize_many_exact P ig r entries w Hcfg Hget)
        by (rewrite Hitems; discriminate).
      split; reflexivity.
  - rewrite featurize_many_cases, (valid_flags ig r Hcfg), Hget.
    split; reflexivity.
Qed.

(** X2: a call changes [n_jobs] and warns only when it takes the Python 2
    fallback; then [n_jobs] becomes 1 and exactly one warning is issued.
    In every other case (Python 3, [n_jobs] already 1, rejected flags,
    input without item access, empty input) [n_jobs] is left as it was
    and no warning is issued. *)
Theorem fallback_effects (ig r : bool) (entries : pyval) (w : world) :
  exists evs,
    trace (snd (featurize_many P entries ig r w)) = trace w ++ evs
    /\ warnings evs = (if falls_back P entries ig r w then 1 else 0)
    /\ _n_jobs (snd (featurize_many P entries ig r w))
       = if falls_back P entries ig r w then Some 1%positive
         else _n_jobs w.
Proof.
  destruct (r && negb ig) eqn:Hflags.
  { exists []. rewrite featurize_many_cases. unfold falls_back.
    rewrite Hflags, app_nil_r. repeat split. }
  assert (Hcfg : r = true -> ig = true)
    by (intros ->; destruct ig; [reflexivity | discriminate Hflags]).
  destruct (has_getitem entries) eqn:Hget.
  - destruct (items entries) as [|x0 rest] eqn:Hitems.
    + exists []. rewrite featurize_many_cases. unfold falls_back, len.
      rewrite Hflags, Hget, Hitems, app_nil_r. repeat split.
    + rewrite (featurize_many_exact P ig r entries w Hcfg Hget)
        by (rewrite Hitems; discriminate).
      eexists. split; [reflexivity|]. split; [|reflexivity].
      rewrite warnings_app, warnings_batch_events.
      destruct (falls_back P entries ig r w); reflexivity.
  - exists []. rewrite featurize_many_cases. unfold falls_back.
    rewrite Hflags, Hget, app_nil_r. cbn [negb andb]. repeat split.
Qed.

Lemma fallback_conditions (ig r : bool) (entries : pyval) (w : world) :
  falls_back P entries ig r w = true ->
  (r = true -> ig = true)
  /\ has_getitem entries = true
  /\ items entries <> []
  /\ Z.ltb (py_major P) 3 = true.
Proof.
  unfold falls_back. intros Hfb.
  apply andb_prop in Hfb as (Hfb & Hpy).
  apply andb_prop in Hfb as (Hfb & _).
  apply andb_prop in Hfb as (Hfb & Hlen).
  apply andb_prop in Hfb as (Hflags & Hget).
  repeat split; try assumption.
  - intros ->. destruct ig; [reflexivity | discriminate Hflags].
  - unfold len in Hlen. destruct (items entries); discriminate.
Qed.

Lemma n_jobs_after_fallback (ig r : bool) (entries : pyval) (w : world) :
  falls_back P entries ig r w = true ->
  _n_jobs (snd (featurize_many P entries ig r w)) = Some 1%positive.
Proof.
  intros Hfb.
  destruct (fallback_conditions ig r entries w Hfb) as (Hcfg & Hget & Hne & _).
  rewrite (featurize_many_exact P ig r entries w Hcfg Hget Hne), Hfb.
  reflexivity.
Qed.

(** What one call does to the warnings on the trace and to [n_jobs]. *)
Lemma call_warnings_and_jobs (ig r : bool) (entries : pyval) (w : world) :
  warnings (trace (snd (featurize_many P entries ig r w)))
  = warnings (trace w) + (if falls_back P entries ig r w then 1 else 0)
  /\ _n_jobs (snd (featurize_many P entries ig r w))
     = if falls_back P entries ig r w then Some 1%positive else _n_jobs w.
Proof.
  destruct (falls_back P entries ig r w) eqn:Hfb.
  - destruct (fallback_conditions ig r entries w Hfb)
      as (Hcfg & Hget & Hne & _).
    rewrite (featurize_many_exact P ig r entries w Hcfg Hget Hne), Hfb.
    cbn [snd trace _n_jobs].
    rewrite !warnings_app, warnings_batch_events. split; reflexivity.
  - destruct (r && negb ig) eqn:Hflags.
    { rewrite featurize_many_cases, Hflags. cbn [snd].
      rewrite Nat.add_0_r. split; reflexivity. }
    assert (Hcfg : r = true -> ig = true)
      by (intros ->; destruct ig; [reflexivity | discriminate Hflags]).
    destruct (has_getitem entries) eqn:Hget.
    + destruct (items entries) as [|x0 rest] eqn:Hitems.
      * rewrite featurize_many_cases, Hflags, Hget, Hitems. cbn [negb snd].
        rewrite Nat.add_0_r. split; reflexivity.
      * rewrite (featurize_many_exact P ig r entries w Hcfg Hget)
          by (rewrite Hitems; discriminate).
        rewrite Hfb. cbn [snd trace _n_jobs app].
        rewrite !warnings_app, warnings_batch_events. split; reflexivity.
    + rewrite featurize_many_cases, Hflags, Hget. cbn [negb snd].
      rewrite Nat.add_0_r. split; reflexivity.
Qed.

(** Once [n_jobs] is 1, calls of [featurize_many] issue no warning. *)
Lemma single_job_never_warns (calls : list (pyval * bool * bool)) :
  forall w,
    jobs P w = 1%positive ->
    warnings (trace (run_calls P calls w)) = warnings (trace w).
Proof.
  induction calls as [|[[entries ig] r] calls IH]; intros w Hjobs;
    [reflexivity|].
  cbn [run_calls].
  assert (Hfb : falls_back P entries ig r w = false).
  { unfold falls_back. rewrite Hjobs. cbn [Pos.eqb negb].
    rewrite andb_false_r. reflexivity. }
  destruct (call_warnings_and_jobs ig r entries w) as (Hwarn & Hn).
  rewrite Hfb in Hwarn, Hn. rewrite Nat.add_0_r in Hwarn.
  rewrite IH, Hwarn; [reflexivity|].
  unfold jobs in *. rewrite Hn. exact Hjobs.
Qed.

(** X3: across any succession of calls of [featurize_many] on one
    featurizer, with no [set_n_jobs] in between, at most one warning is
    issued in total: the call that takes the Python 2 fallback sets
    [n_jobs] to 1, and from then on no call takes it. *)
Theorem warns_at_most_once (calls : list (pyval * bool * bool)) (w : world) :
  warnings (trace (run_calls P calls w)) <= warnings (trace w) + 1.
Proof.
  revert w. induction calls as [|[[entries ig] r] calls IH]; intros w.
  - cbn [run_calls]. lia.
  - cbn [run_calls].
    destruct (call_warnings_and_jobs ig r entries w) as (Hwarn & Hn).
    destruct (falls_back P entries ig r w).
    + rewrite single_job_never_warns; [lia|].
      unfold jobs. rewrite Hn. reflexivity.
    + specialize (IH (snd (featurize_many P entries ig r w))). lia.
Qed.

(** X4: a call that takes the fallback does exactly what these three
    steps do: issue the warning, [set_n_jobs(1)], and call
    [featurize_many] again on the entries the caller passed. *)
Theorem fallback_is_rerun (ig r : bool) (entries : pyval) (w : world) :
  falls_back P entries ig r w = true ->
  featurize_many P entries ig r w
  = (emit EvWarn ;; set_n_jobs 1 ;; featurize_many P entries ig r) w.
Proof.
  intros Hfb.
  destruct (fallback_conditions ig r entries w Hfb)
    as (Hcfg & Hget & Hne & Hpy).
  unfold bind, emit, set_n_jobs.
  cbn [_n_jobs __ignore_errors __return_errors trace].
  rewrite !(featurize_many_exact P ig r entries _ Hcfg Hget Hne).
  rewrite Hfb.
  assert (Hseq : sequentially P w = true)
    by (unfold sequentially; rewrite Hpy; apply orb_true_r).
  rewrite Hseq.
  unfold falls_back, sequentially, jobs.
  cbn [_n_jobs trace Pos.eqb negb orb].
  rewrite andb_false_r. cbn [andb app].
  rewrite <- app_assoc. reflexivity.
Qed.

End StateEffects.

Section Outcomes2.

Context {F : Featurizer} (P : Platform).

Lemma wrapper_result_ext (P' : Platform) (ig r : bool) (x : pyval) :
  format_exception P = format_exception P' ->
  wrapper_result P ig r x = wrapper_result P' ig r x.
Proof.
  intros Hfmt. unfold wrapper_result, nan_vector. rewrite Hfmt. reflexivity.
Qed.


Lemma wrapper_result_tolerant (labels : list pyval) (r : bool) (x : pyval) :
  feature_labels = Return labels ->
  wrapper_result P true r x
  = Return (tolerant_row P (List.length labels) r x).
Proof.
  intros Hlabels. unfold wrapper_result, tolerant_row.
  destruct (apply_featurize x); [reflexivity|].
  rewrite Hlabels. reflexivity.
Qed.

(** The whole of a tolerant batch. *)
Lemma tolerant_batch (labels : list pyval) (r : bool) (entries : pyval)
    (w : world) :
  feature_labels = Return labels ->
  has_getitem entries = true ->
  fst (featurize_many P entries true r w)
  = Return (map (tolerant_row P (List.length labels) r) (prepared entries)).
Proof.
  intros Hlabels Hget. apply featurize_many_returns_iff.
  split; [reflexivity|]. split; [exact Hget|].
  rewrite map_map. apply map_ext. intros x.
  apply wrapper_result_tolerant, Hlabels.
Qed.

(** X6: run sequentially ([n_jobs] is 1, or Python 2), [transform] on a
    list, a tuple, an array of at least one dimension or a string always
    returns when the label query answers: one vector for each item, in
    order; the transform's own vector where it returned, and as many NaN
    as there are labels where it raised. *)
Theorem transform_rows (labels : list pyval) (X : pyval) (w : world) :
  feature_labels = Return labels ->
  has_getitem X = true ->
  sequentially P w = true ->
  exists res,
    fst (transform P X w) = Return res
    /\ List.length res = len X
    /\ forall i x,
         nth_error (items X) i = Some x ->
         nth_error res i
         = Some (match apply_featurize (as_args X x) with
                 | Return v => v
                 | Raise _ => repeat PyNaN (List.length labels)
                 end).
Proof.
  intros Hlabels Hget Hseq.
  exists (map (tolerant_row P (List.length labels) false) (prepared X)).
  split.
  - unfold transform. rewrite featurize_many_outcome, Hget, Hseq.
    cbn [andb negb batch_result]. apply sequential_return_iff.
    rewrite map_map. apply map_ext. intros x.
    apply wrapper_result_tolerant, Hlabels.
  - split.
    + unfold prepared, len. rewrite !length_map. reflexivity.
    + intros i x Hnth. unfold prepared.
      rewrite !nth_error_map, Hnth. cbn [option_map].
      unfold tolerant_row, nan_vector.
      destruct (apply_featurize (as_args X x)); [reflexivity|].
      rewrite app_nil_r. reflexivity.
Qed.

(** X7: under [return_errors=True] the last element of each returned
    vector tells whether the transform failed on that item: it is NaN
    where the transform returned, and the formatted traceback where it
    raised. *)
Theorem error_column (entries : pyval) (w : world)
    (res : list (list pyval)) :
  fst (featurize_many P entries true true w) = Return res ->
  forall i x,
    nth_error (items entries) i = Some x ->
    exists v,
      nth_error res i = Some v
      /\ last v PyNone
         = match apply_featurize (as_args entries x) with
           | Return _ => PyNaN
           | Raise e => PyStr (format_exception P e)
           end.
Proof.
  intros Hrun i x Hnth.
  apply featurize_many_returns_iff in Hrun as (_ & _ & Hmap).
  apply (f_equal (fun l => nth_error l i)) in Hmap.
  unfold prepared in Hmap. rewrite !nth_error_map, Hnth in Hmap.
  cbn [option_map] in Hmap.
  destruct (nth_error res i) as [v|]; [|discriminate].
  cbn [option_map] in Hmap. injection Hmap as Hres.
  exists v. split; [reflexivity|].
  unfold wrapper_result in Hres.
  destruct (apply_featurize (as_args entries x)) as [v0|e].
  - injection Hres as <-. apply last_last.
  - destruct feature_labels as [labels|e']; [|discriminate].
    injection Hres as <-. unfold nan_vector. apply last_last.
Qed.

(** X8: in tolerant mode [return_errors=True] only adds the last
    element: removing the last element of every vector of the batch with
    [return_errors=True] gives the batch with [return_errors=False]. *)
Theorem error_column_is_extra (labels : list pyval) (entries : pyval)
    (w : world) :
  feature_labels = Return labels ->
  has_getitem entries = true ->
  exists res1 res0,
    fst (featurize_many P entries true true w) = Return res1
    /\ fst (featurize_many P entries true false w) = Return res0
    /\ map (@removelast pyval) res1 = res0.
Proof.
  intros Hlabels Hget. eexists _, _.
  split; [exact (tolerant_batch labels true entries w Hlabels Hget)|].
  split; [exact (tolerant_batch labels false entries w Hlabels Hget)|].
  rewrite map_map. apply map_ext. intros x.
  unfold tolerant_row, nan_vector.
  destruct (apply_featurize x); rewrite removelast_last, ?app_nil_r;
    reflexivity.
Qed.

(** A tolerant batch with a failing item, when the label query raises. *)
Lemma tolerant_raises_labels_exn (e' : exn) (r : bool) (entries : pyval)
    (w : world) :
  feature_labels = Raise e' ->
  has_getitem entries = true ->
  (exists x, In x (items entries)
             /\ is_return (apply_featurize (as_args entries x)) = false) ->
  fst (featurize_many P entries true r w) = Raise e'.
Proof.
  intros Hlabels Hget (x & Hx & Hfail).
  assert (Hwr : forall y e, wrapper_result P true r y = Raise e -> e = e').
  { intros y e. unfold wrapper_result.
    destruct (apply_featurize y); [discriminate|].
    rewrite Hlabels. congruence. }
  destruct (fst (featurize_many P entries true r w)) as [res|e] eqn:Hrun.
  - exfalso. apply featurize_many_returns_iff in Hrun as (_ & _ & Hmap).
    assert (Hin : In (wrapper_result P true r (as_args entries x))
                     (map Return res)).
    { rewrite <- Hmap. apply in_map. apply In_prepared.
      exists x. split; [exact Hx | reflexivity]. }
    apply in_map_iff in Hin as (v & Hv & _).
    unfold wrapper_result in Hv.
    destruct (apply_featurize (as_args entries x)); [discriminate|].
    rewrite Hlabels in Hv. discriminate.
  - rewrite featurize_many_outcome in Hrun. cbn [andb negb] in Hrun.
    rewrite andb_false_r, Hget in Hrun. cbn [negb] in Hrun.
    apply batch_raise in Hrun as (y & _ & Hres).
    rewrite (Hwr y e Hres). reflexivity.
Qed.


End Outcomes2.

Section Edges.

Context {F : Featurizer} (P : Platform).

(** X10: [featurize_wrapper] called on a featurizer on which no call of
    [featurize_many] ever got past the configuration check finds neither
    flag: it raises [AttributeError] and leaves the featurizer as it was,
    the transform not having been called. *)
Theorem wrapper_needs_flags (x : pyval) (w : world) :
  __ignore_errors w = None ->
  __return_errors w = None ->
  featurize_wrapper P x w = (Raise (attribute_error "__ignore_errors"), w).
Proof.
  intros Hig Hr.
  unfold featurize_wrapper, try_except, bind, get_return_errors,
    get_ignore_errors.
  rewrite Hr, Hig. reflexivity.
Qed.

(** X11: with both flags false the wrapper is transparent: it returns
    what the transform returns and raises what the transform raises, and
    it does not query the feature labels. *)
Theorem strict_wrapper_transparent (x : pyval) (w : world) :
  __ignore_errors w = Some false ->
  __return_errors w = Some false ->
  featurize_wrapper P x w
  = (apply_featurize x, add_trace w (map EvFeaturize (call_of x))).
Proof.
  intros Hig Hr. rewrite (featurize_wrapper_run P false false x w Hig Hr).
  unfold wrapper_result, wrapper_events, apply_featurize, call_of.
  destruct (iter x) as [args|]; [|reflexivity].
  destruct (featurize args); reflexivity.
Qed.

Lemma featurize_calls_app (evs1 evs2 : list event) :
  featurize_calls (evs1 ++ evs2)
  = featurize_calls evs1 ++ featurize_calls evs2.
Proof.
  induction evs1 as [|[args| |] evs1 IH]; cbn; rewrite ?IH; reflexivity.
Qed.

Lemma featurize_calls_strict (x : pyval) :
  featurize_calls (wrapper_events false x) = call_of x.
Proof.
  unfold wrapper_events, call_of.
  destruct (iter x) as [args|]; [|reflexivity].
  destruct (featurize args); reflexivity.
Qed.

(** The list comprehension in fail-fast mode, up to the first failure. *)
Lemma strict_prefix (ys zs : list pyval) (b : pyval) (e : exn) :
  (forall y, In y ys -> is_return (apply_featurize y) = true) ->
  apply_featurize b = Raise e ->
  sequential P false false (ys ++ b :: zs) = Raise e
  /\ featurize_calls (sequential_events P false false (ys ++ b :: zs))
     = flat_map call_of (ys ++ [b]).
Proof.
  intros Hall Hb. induction ys as [|y ys IH].
  - cbn [app sequential sequential_events flat_map].
    unfold wrapper_result. rewrite Hb.
    rewrite !app_nil_r, featurize_calls_strict. split; reflexivity.
  - destruct IH as (IHres & IHevs);
      [intros z Hz; apply Hall; right; exact Hz|].
    specialize (Hall y (or_introl eq_refl)).
    cbn [app sequential sequential_events flat_map].
    unfold wrapper_result at 1 2.
    destruct (apply_featurize y) as [v|e0]; [|discriminate].
    rewrite IHres, featurize_calls_app, featurize_calls_strict, IHevs.
    split; reflexivity.
Qed.

(** X12: run sequentially ([n_jobs] is 1, or Python 2) with both flags
    false, a batch stops at the first item on which the transform
    raises: the call raises that item's exception, and the transform has
    been called, in order, on the items up to and including that one and
    on none of the items after it. *)
Theorem sequential_stops_at_first_failure (entries : pyval) (w : world)
    (pre post : list pyval) (bad : pyval) (e : exn) :
  sequentially P w = true ->
  has_getitem entries = true ->
  items entries = pre ++ bad :: post ->
  (forall x, In x pre ->
             is_return (apply_featurize (as_args entries x)) = true) ->
  apply_featurize (as_args entries bad) = Raise e ->
  fst (featurize_many P entries false false w) = Raise e
  /\ exists evs,
       trace (snd (featurize_many P entries false false w)) = trace w ++ evs
       /\ featurize_calls evs
          = flat_map call_of (map (as_args entries) (pre ++ [bad])).
Proof.
  intros Hseq Hget Hitems Hpre Hbad.
  assert (Hne : items entries <> [])
    by (rewrite Hitems; destruct pre; discriminate).
  rewrite (featurize_many_exact P false false entries w
             (fun H => H) Hget Hne).
  rewrite Hseq. cbn [fst snd trace batch_result batch_events].
  unfold prepared. rewrite Hitems, !map_app. cbn [map].
  destruct (strict_prefix (map (as_args entries) pre)
              (map (as_args entries) post) (as_args entries bad) e)
    as (Hres & Hevs); [|exact Hbad|].
  { intros y Hy. apply in_map_iff in Hy as (x & <- & Hx). apply Hpre, Hx. }
  split; [exact Hres|].
  eexists. split; [reflexivity|].
  rewrite featurize_calls_app, Hevs.
  destruct (falls_back P entries false false w); reflexivity.
Qed.

End Edges.

(** X13: the base class itself, whose [featurize] and [feature_labels]
    are not defined, fails on every non-empty list, tuple, array or
    string: in tolerant mode the call raises the [NotImplementedError] of
    [feature_labels], and with both flags false it raises the
    [NotImplementedError] of [featurize] when every item can be
    unpacked. *)
Theorem abstract_base_raises (P : Platform) (entries : pyval) (w : world) :
  has_getitem entries = true ->
  items entries <> [] ->
  (forall r,
      fst (featurize_many (F := AbstractBase) P entries true r w)
      = Raise (not_implemented "feature_labels()"))
  /\ ((forall x, In x (items entries) -> iter (as_args entries x) <> None) ->
      fst (featurize_many (F := AbstractBase) P entries false false w)
      = Raise (not_implemented "featurize()")).
Proof.
  intros Hget Hne.
  assert (Hfail : exists x, In x (items entries)
            /\ is_return (apply_featurize (F := AbstractBase)
                            (as_args entries x)) = false).
  { destruct (items entries) as [|x0 rest] eqn:Hitems; [congruence|].
    exists x0. split; [left; reflexivity|].
    unfold apply_featurize. destruct (iter (as_args entries x0)); reflexivity. }
  split.
  - intros r.
    exact (tolerant_raises_labels_exn (F := AbstractBase) P
             (not_implemented "feature_labels()") r entries w
             eq_refl Hget Hfail).
  - intros Hiter. destruct Hfail as (x & Hx & Hxfail).
    destruct (fst (featurize_many (F := AbstractBase) P entries false false w))
      as [res|e] eqn:Hrun.
    + exfalso. apply featurize_many_returns_iff in Hrun as (_ & _ & Hmap).
      assert (Hin : In (wrapper_result (F := AbstractBase) P false false
                          (as_args entries x)) (map Return res)).
      { rewrite <- Hmap. apply in_map. apply In_prepared.
        exists x. split; [exact Hx | reflexivity]. }
      apply in_map_iff in Hin as (v & Hv & _).
      unfold wrapper_result in Hv.
      destruct (apply_featurize (as_args entries x)); discriminate.
    + rewrite featurize_many_outcome in Hrun. cbn [andb negb] in Hrun.
      rewrite Hget in Hrun. cbn [negb] in Hrun.
      apply batch_raise in Hrun as (y & Hy & Hres).
      apply In_prepared in Hy as (x' & Hx' & ->).
      apply (wrapper_result_strict P false) in Hres.
      unfold apply_featurize in Hres.
      destruct (iter (as_args entries x')) eqn:Hit;
        [|exfalso; exact (Hiter x' Hx' Hit)].
      cbn in Hres. congruence.
Qed.

(** ** [featurize_dataframe] *)

Example dataframe_tolerant_inplace :
  featurize_dataframe (F := Doubler) python3 ToyPandas "Doubler"
    (PyStr "x") true false true three_rows single_job
  = (Return [("x", [PyInt 1; PyStr "a"; PyInt 3]);
             ("double", [PyInt 2; PyNaN; PyInt 6])],
     [("x", [PyInt 1; PyStr "a"; PyInt 3]);
      ("double", [PyInt 2; PyNaN; PyInt 6])],
     World (Some 1%positive) (Some true) (Some false)
           [EvLabels; EvFeaturize [PyInt 1]; EvFeaturize [PyStr "a"];
            EvLabels; EvFeaturize [PyInt 3]]).
Proof. vm_compute. reflexivity. Qed.

Section DataFrameFacts.

Context {frame : Type} {F : Featurizer} (P : Platform) (pd : Pandas frame)
  (class_name : string).

(** The loop of lines 147 to 149 stops at the first column that is a
    feature label. *)
Lemma check_columns_run (labels : list pyval) (cols : list string)
    (df : frame) (w : world) :
  check_columns labels cols df w
  = (match find (fun c => label_in c labels) cols with
     | Some c => Raise (exists_error c)
     | None => Return tt
     end, df, w).
Proof.
  induction cols as [|c cols IH]; [reflexivity|].
  cbn [check_columns find]. destruct (label_in c labels); [reflexivity|].
  exact IH.
Qed.

Lemma find_first (labels : list pyval) (cols1 cols2 : list string)
    (col : string) :
  (forall c, In c cols1 -> label_in c labels = false) ->
  label_in col labels = true ->
  find (fun c => label_in c labels) (cols1 ++ col :: cols2) = Some col.
Proof.
  intros Hbefore Hcol. induction cols1 as [|c cols1 IH].
  - cbn. rewrite Hcol. reflexivity.
  - cbn [app find]. rewrite (Hbefore c (or_introl eq_refl)).
    apply IH. intros c' Hc'. apply Hbefore. right; exact Hc'.
Qed.

Lemma find_none (labels : list pyval) (cols : list string) :
  (forall c, In c cols -> label_in c labels = false) ->
  find (fun c => label_in c labels) cols = None.
Proof.
  intros Hall. induction cols as [|c cols IH]; [reflexivity|].
  cbn [find]. rewrite (Hall c (or_introl eq_refl)).
  apply IH. intros c' Hc'. apply Hall. right; exact Hc'.
Qed.

(** The method up to the call of [featurize_many], when nothing before
    it raises. *)
Lemma featurize_dataframe_reaches_batch (labels : list pyval)
    (col_id values : pyval) (ig r inplace : bool) (df : frame) (w : world) :
  feature_labels = Return labels ->
  (forall c, In c (columns_values pd df) -> label_in c labels = false) ->
  getitem_values pd df (if is_string col_id then PySeq KList [col_id]
                        else col_id) = Return values ->
  featurize_dataframe P pd class_name col_id ig r inplace df w
  = match featurize_many P values ig r (add_trace w [EvLabels]) with
    | (Raise e, w') => (Raise e, df, w')
    | (Return features, w') =>
        let labels' := if r then labels ++ [PyStr (class_name ++ " Exceptions")]
                       else labels in
        match DataFrame pd features df labels' with
        | Raise e => (Raise e, df, w')
        | Return res =>
            if inplace then
              dbind (assign_columns pd res labels')
                    (fun _ => reading (fun df' => Return df')) df w'
            else (concat_columns pd df res, df, w')
        end
    end.
Proof.
  intros Hlabels Hcols Hvalues.
  unfold featurize_dataframe, dbind at 1 2 3 4 5, on_self at 1, reading at 1 2,
    call_feature_labels, bind, emit, lift.
  rewrite Hlabels, check_columns_run, (find_none labels _ Hcols), Hvalues.
  unfold on_self. fold (add_trace w [EvLabels]).
  destruct (featurize_many P values ig r (add_trace w [EvLabels]))
    as [[features|e] w']; [|reflexivity].
  unfold dbind at 1, reading at 1.
  destruct (DataFrame pd features df _); [|reflexivity].
  destruct inplace; reflexivity.
Qed.


(** X14: a frame that already has a column named like a feature label
    is rejected: the call raises the [ValueError] that names the first
    such column, whatever the flags are.  The frame is untouched and only
    the label query has been made: the transform was not called. *)
Theorem column_clash_rejected (labels : list pyval) (cols1 cols2 : list string)
    (col : string) (col_id : pyval) (ig r inplace : bool) (df : frame)
    (w : world) :
  feature_labels = Return labels ->
  columns_values pd df = cols1 ++ col :: cols2 ->
  (forall c, In c cols1 -> label_in c labels = false) ->
  label_in col labels = true ->
  featurize_dataframe P pd class_name col_id ig r inplace df w
  = (Raise (exists_error col), df, add_trace w [EvLabels]).
Proof.
  intros Hlabels Hcols Hbefore Hcol.
  unfold featurize_dataframe, dbind, on_self, reading,
    call_feature_labels, bind, emit, lift.
  rewrite Hlabels, check_columns_run, Hcols,
    (find_first labels cols1 cols2 col Hbefore Hcol).
  reflexivity.
Qed.

(** X15: in [featurize_dataframe] the configuration error comes late.
    With [return_errors=True] and [ignore_errors=False], a frame without
    a clashing column and with the requested input columns gets the
    configuration [ValueError] only after the label query, the column
    check and the column selection; the frame is untouched and the
    transform was not called. *)
Theorem dataframe_config_error (labels : list pyval) (col_id values : pyval)
    (inplace : bool) (df : frame) (w : world) :
  feature_labels = Return labels ->
  (forall c, In c (columns_values pd df) -> label_in c labels = false) ->
  getitem_values pd df (if is_string col_id then PySeq KList [col_id]
                        else col_id) = Return values ->
  featurize_dataframe P pd class_name col_id false true inplace df w
  = (Raise config_error, df, add_trace w [EvLabels]).
Proof.
  intros Hlabels Hcols Hvalues.
  rewrite (featurize_dataframe_reaches_batch labels col_id values
             false true inplace df w Hlabels Hcols Hvalues).
  reflexivity.
Qed.


(** X17: with [inplace=False] the caller's frame is never modified,
    however the call ends. *)
Theorem not_inplace_keeps_frame (col_id : pyval) (ig r : bool) (df : frame)
    (w : world) :
  snd (fst (featurize_dataframe P pd class_name col_id ig r false df w)) = df.
Proof.
  unfold featurize_dataframe, dbind, on_self, reading.
  destruct (call_feature_labels w) as [[labels|e] w1]; [|reflexivity].
  rewrite check_columns_run.
  destruct (find _ (columns_values pd df)); [reflexivity|].
  destruct (getitem_values pd df _); [|reflexivity].
  destruct (featurize_many P _ ig r w1) as [[features|e] w2]; [|reflexivity].
  destruct (DataFrame pd features df _); reflexivity.
Qed.

End DataFrameFacts.

(** ** The further properties at concrete inputs *)

Lemma accepted_call_stores_flags_witness :
  (false = true -> true = true)
  /\ __ignore_errors (snd (featurize_many (F := Doubler) python3 PyNone
                             true false fresh)) = Some true
  /\ __return_errors (snd (featurize_many (F := Doubler) python3 PyNone
                             true false fresh)) = Some false.
Proof.
  split; [intros _; reflexivity|].
  apply (accepted_call_stores_flags (F := Doubler) python3 true false PyNone
           fresh). intros _; reflexivity.
Defined.

Lemma fallback_is_rerun_witness :
  falls_back python2 (PySeq KList [PyInt 1; PyInt 2]) true true fresh = true
  /\ featurize_many (F := Doubler) python2 (PySeq KList [PyInt 1; PyInt 2])
       true true fresh
     = (emit EvWarn ;; set_n_jobs 1 ;;
        featurize_many (F := Doubler) python2
          (PySeq KList [PyInt 1; PyInt 2]) true true) fresh.
Proof.
  split; [reflexivity|].
  apply (fallback_is_rerun (F := Doubler) python2 true true
           (PySeq KList [PyInt 1; PyInt 2]) fresh). reflexivity.
Defined.


Example two_calls_one_warning :
  warnings (trace (run_calls (F := Doubler) python2
                     [(mixed_batch, true, false); (mixed_batch, false, false)]
                     fresh)) = 1.
Proof. reflexivity. Qed.

Lemma transform_rows_witness :
  feature_labels (Featurizer := Doubler) = Return [PyStr "double"]
  /\ has_getitem mixed_batch = true
  /\ sequentially python3 single_job = true
  /\ exists res,
       fst (transform (F := Doubler) python3 mixed_batch single_job)
       = Return res
       /\ List.length res = len mixed_batch
       /\ forall i x,
            nth_error (items mixed_batch) i = Some x ->
            nth_error res i
            = Some (match apply_featurize (F := Doubler)
                            (as_args mixed_batch x) with
                    | Return v => v
                    | Raise _ => repeat PyNaN (List.length [PyStr "double"])
                    end).
Proof.
  split; [reflexivity|].
  split; [reflexivity|].
  split; [reflexivity|].
  apply (transform_rows (F := Doubler) python3 [PyStr "double"] mixed_batch
           single_job); reflexivity.
Defined.

Lemma error_column_witness :
  fst (featurize_many (F := Doubler) python3 mixed_batch true true fresh)
  = Return [[PyInt 2; PyNaN];
            [PyNaN; PyStr "TypeError: unsupported operand"];
            [PyInt 6; PyNaN]]
  /\ forall i x,
       nth_error (items mixed_batch) i = Some x ->
       exists v,
         nth_error [[PyInt 2; PyNaN];
                    [PyNaN; PyStr "TypeError: unsupported operand"];
                    [PyInt 6; PyNaN]] i = Some v
         /\ last v PyNone
            = match apply_featurize (F := Doubler) (as_args mixed_batch x) with
              | Return _ => PyNaN
              | Raise e => PyStr (format_exception python3 e)
              end.
Proof.
  split; [reflexivity|].
  apply (error_column (F := Doubler) python3 mixed_batch fresh). reflexivity.
Defined.

Lemma error_column_is_extra_witness :
  feature_labels (Featurizer := Doubler) = Return [PyStr "double"]
  /\ has_getitem mixed_batch = true
  /\ exists res1 res0,
       fst (featurize_many (F := Doubler) python3 mixed_batch true true fresh)
       = Return res1
       /\ fst (featurize_many (F := Doubler) python3 mixed_batch true false
                 fresh) = Return res0
       /\ map (@removelast pyval) res1 = res0.
Proof.
  split; [reflexivity|].
  split; [reflexivity|].
  apply (error_column_is_extra (F := Doubler) python3 [PyStr "double"]
           mixed_batch fresh); reflexivity.
Defined.


Lemma wrapper_needs_flags_witness :
  __ignore_errors fresh = None
  /\ __return_errors fresh = None
  /\ featurize_wrapper (F := Doubler) python3 (PySeq KTuple [PyInt 1]) fresh
     = (Raise (attribute_error "__ignore_errors"), fresh).
Proof.
  split; [reflexivity|].
  split; [reflexivity|].
  apply (wrapper_needs_flags (F := Doubler) python3 (PySeq KTuple [PyInt 1])
           fresh); reflexivity.
Defined.

Lemma strict_wrapper_transparent_witness :
  __ignore_errors (with_flags false false fresh) = Some false
  /\ __return_errors (with_flags false false fresh) = Some false
  /\ featurize_wrapper (F := Doubler) python3 (PySeq KTuple [PyStr "x"])
       (with_flags false false fresh)
     = (apply_featurize (F := Doubler) (PySeq KTuple [PyStr "x"]),
        add_trace (with_flags false false fresh)
                  (map EvFeaturize (call_of (PySeq KTuple [PyStr "x"])))).
Proof.
  split; [reflexivity|].
  split; [reflexivity|].
  apply (strict_wrapper_transparent (F := Doubler) python3
           (PySeq KTuple [PyStr "x"]) (with_flags false false fresh));
    reflexivity.
Defined.

Lemma sequential_stops_at_first_failure_witness :
  sequentially python3 single_job = true
  /\ has_getitem mixed_batch = true
  /\ fst (featurize_many (F := Doubler) python3 mixed_batch false false
            single_job)
     = Raise (Exn "TypeError" "unsupported operand")
  /\ exists evs,
       trace (snd (featurize_many (F := Doubler) python3 mixed_batch
                     false false single_job)) = trace single_job ++ evs
       /\ featurize_calls evs
          = flat_map call_of
              (map (as_args mixed_batch)
                   ([PySeq KTuple [PyInt 1]] ++ [PySeq KTuple [PyStr "x"]])).
Proof.
  split; [reflexivity|].
  split; [reflexivity|].
  apply (sequential_stops_at_first_failure (F := Doubler) python3 mixed_batch
           single_job [PySeq KTuple [PyInt 1]] [PySeq KTuple [PyInt 3]]
           (PySeq KTuple [PyStr "x"])
           (Exn "TypeError" "unsupported operand"));
    try reflexivity.
  intros x [<-|[]]. reflexivity.
Defined.

Lemma abstract_base_raises_witness :
  has_getitem (PySeq KList [PySeq KTuple [PyInt 1]; PyInt 5]) = true
  /\ items (PySeq KList [PySeq KTuple [PyInt 1]; PyInt 5]) <> []
  /\ (forall r,
        fst (featurize_many (F := AbstractBase) python3
               (PySeq KList [PySeq KTuple [PyInt 1]; PyInt 5]) true r fresh)
        = Raise (not_implemented "feature_labels()"))
  /\ ((forall x,
         In x (items (PySeq KList [PySeq KTuple [PyInt 1]; PyInt 5])) ->
         iter (as_args (PySeq KList [PySeq KTuple [PyInt 1]; PyInt 5]) x)
         <> None) ->
      fst (featurize_many (F := AbstractBase) python3
             (PySeq KList [PySeq KTuple [PyInt 1]; PyInt 5]) false false fresh)
      = Raise (not_implemented "featurize()")).
Proof.
  split; [reflexivity|].
  split; [discriminate|].
  apply (abstract_base_raises python3
           (PySeq KList [PySeq KTuple [PyInt 1]; PyInt 5]) fresh);
    [reflexivity | discriminate].
Defined.

Lemma column_clash_rejected_witness :
  feature_labels (Featurizer := Doubler) = Return [PyStr "double"]
  /\ columns_values ToyPandas clashing_frame = ["x"] ++ "double" :: []
  /\ label_in "double" [PyStr "double"] = true
  /\ featurize_dataframe (F := Doubler) python3 ToyPandas "Doubler"
       (PyStr "x") true true true clashing_frame fresh
     = (Raise (exists_error "double"), clashing_frame,
        add_trace fresh [EvLabels]).
Proof.
  split; [reflexivity|].
  split; [reflexivity|].
  split; [reflexivity|].
  apply (column_clash_rejected (F := Doubler) python3 ToyPandas "Doubler"
           [PyStr "double"] ["x"] [] "double" (PyStr "x") true true true
           clashing_frame fresh); try reflexivity.
  intros c [<-|[]]. reflexivity.
Defined.

Lemma dataframe_config_error_witness :
  feature_labels (Featurizer := Doubler) = Return [PyStr "double"]
  /\ getitem_values ToyPandas three_rows (PySeq KList [PyStr "x"])
     = Return (PySeq KArray [PySeq KArray [PyInt 1]; PySeq KArray [PyStr "a"];
                             PySeq KArray [PyInt 3]])
  /\ featurize_dataframe (F := Doubler) python3 ToyPandas "Doubler"
       (PyStr "x") false true true three_rows fresh
     = (Raise config_error, three_rows, add_trace fresh [EvLabels]).
Proof.
  split; [reflexivity|].
  split; [reflexivity|].
  apply (dataframe_config_error (F := Doubler) python3 ToyPandas "Doubler"
           [PyStr "double"] (PyStr "x")
           (PySeq KArray [PySeq KArray [PyInt 1]; PySeq KArray [PyStr "a"];
                          PySeq KArray [PyInt 3]])
           true three_rows fresh); try reflexivity.
  intros c [<-|[]]. reflexivity.
Defined.


Section Inputs.

Context {F : Featurizer} (P : Platform).

(** The driver sees its input only through item access: what matters is
    whether the input has it, and which items it has. *)
Lemma featurize_many_by_items (ig r : bool) (e1 e2 : pyval) (w : world) :
  has_getitem e1 = has_getitem e2 ->
  items e1 = items e2 ->
  featurize_many P e1 ig r w = featurize_many P e2 ig r w.
Proof.
  intros Hget Hitems. rewrite !featurize_many_cases.
  unfold prepared, as_args, wraps. rewrite Hget, Hitems. reflexivity.
Qed.

(** X18: a string given as [entries] is not one entry: it has item
    access, so the call featurizes its characters one by one, exactly as
    it does for the list of the one-character strings. *)
Theorem string_entries_are_split (s : string) (ig r : bool) (w : world) :
  featurize_many P (PyStr s) ig r w
  = featurize_many P (PySeq KList (chars s)) ig r w.
Proof. apply featurize_many_by_items; reflexivity. Qed.






Lemma sequential_ext (P' : Platform) (ig r : bool) (xs : list pyval) :
  format_exception P = format_exception P' ->
  sequential P ig r xs = sequential P' ig r xs
  /\ sequential_events P ig r xs = sequential_events P' ig r xs.
Proof.
  intros Hfmt. induction xs as [|x xs (IHres & IHevs)].
  - split; reflexivity.
  - cbn [sequential sequential_events].
    rewrite (wrapper_result_ext P P' ig r x Hfmt), IHres, IHevs.
    split; reflexivity.
Qed.

(** X20: after [set_n_jobs(1)] a call does not depend on the platform:
    the outcome and the state it leaves are the same on Python 2 and 3,
    for any number of processors and any pool scheduling, given the same
    traceback formatter. *)
Theorem single_job_platform_independent (P' : Platform) (ig r : bool)
    (entries : pyval) (w : world) :
  format_exception P = format_exception P' ->
  (set_n_jobs 1 ;; featurize_many P entries ig r) w
  = (set_n_jobs 1 ;; featurize_many P' entries ig r) w.
Proof.
  intros Hfmt. unfold bind, set_n_jobs.
  set (w1 := World (Some 1%positive) (__ignore_errors w) (__return_errors w)
                   (trace w)).
  rewrite !featurize_many_cases.
  destruct (r && negb ig); [reflexivity|].
  destruct (negb (has_getitem entries)); [reflexivity|].
  destruct (items entries) as [|x0 rest]; [reflexivity|].
  change (jobs P w1) with 1%positive. change (jobs P' w1) with 1%positive.
  cbn [Pos.eqb].
  rewrite !(mapM_wrapper_exact _ ig r _ (with_flags ig r w1) eq_refl eq_refl).
  destruct (sequential_ext P' ig r (prepared entries) Hfmt) as (-> & ->).
  reflexivity.
Qed.

End Inputs.


Lemma single_job_platform_independent_witness :
  format_exception python2 = format_exception python3_other
  /\ (set_n_jobs 1 ;; featurize_many (F := Doubler) python2 mixed_batch
                        false false) fresh
     = (set_n_jobs 1 ;; featurize_many (F := Doubler) python3_other
                          mixed_batch false false) fresh.
Proof.
  split; [reflexivity|].
  apply (single_job_platform_independent (F := Doubler) python2 python3_other
           false false mixed_batch fresh). reflexivity.
Defined.
